(** * PTM-Torrent, ModelhubTorrent/scripts/1a_init.py

    A shallow embedding of the initialisation script: the model index is
    fetched (or read from its saved copy), one [clone_repo] call per index
    entry goes to a thread pool, and each call clones the repository,
    downloads the externally hosted files listed in [init/init.json] and
    writes [model.json] and [modelhub.json] under the metadata directory.

    The script is written against the process state (environment, working
    directory, file system, standard output, child processes); here that
    state is a record [World] threaded through a state-and-exception monad. *)

From Stdlib Require Import Ascii DecimalString.
From stdpp Require Import gmap strings list fin_maps.

Set Warnings "-register-all".
Open Scope string_scope.
Open Scope list_scope.

(** ** JSON values, as [json.loads] returns them *)

(** A Python [dict] keeps its keys in insertion order and holds each key
    once: an association list that [dict_set] updates in place. *)
Inductive json : Type :=
  | JNull
  | JBool (b : bool)
  | JNum (n : Z)
  | JStr (s : string)
  | JArr (l : list json)
  | JObj (kvs : list (string * json)).

Fixpoint dict_get (kvs : list (string * json)) (k : string) : option json :=
  match kvs with
  | [] => None
  | (k', v) :: r => if String.eqb k' k then Some v else dict_get r k
  end.

Fixpoint dict_set (kvs : list (string * json)) (k : string) (v : json)
  : list (string * json) :=
  match kvs with
  | [] => [(k, v)]
  | (k', v') :: r =>
      if String.eqb k' k then (k', v) :: r else (k', v') :: dict_set r k v
  end.

(** Truth value of an object in a condition ([if x:], [not x]). *)
Definition truthy (v : json) : bool :=
  match v with
  | JNull => false
  | JBool b => b
  | JNum n => negb (n =? 0)%Z
  | JStr s => negb (String.eqb s "")
  | JArr l => match l with [] => false | _ => true end
  | JObj kvs => match kvs with [] => false | _ => true end
  end.

(** ** Exceptions *)

Inductive exn : Type :=
  | KeyError (k : string)
  | TypeError
  | AttributeError
  | ValueError
  | JSONDecodeError
  | FileNotFoundError
  | FileExistsError
  | IsADirectoryError
  | NotADirectoryError
  | CalledProcessError
  | RequestException.

Inductive result (A : Type) : Type :=
  | Ok (a : A)
  | Raise (e : exn).
Arguments Ok {A} a.
Arguments Raise {A} e.

(** ** Strings *)

Definition startswith (s p : string) : bool := String.prefix p s.

(** [s[1:]] *)
Definition drop1 (s : string) : string :=
  match s with
  | EmptyString => EmptyString
  | String _ r => r
  end.

(** [s.split(sep)] for a one-character separator. *)
Fixpoint split_on (sep : ascii) (s : string) : list string :=
  match s with
  | EmptyString => [EmptyString]
  | String c r =>
      if Ascii.eqb c sep then EmptyString :: split_on sep r
      else match split_on sep r with
           | [] => [String c EmptyString]
           | w :: ws => String c w :: ws
           end
  end.

(** [sep.join(l)] *)
Fixpoint join (sep : string) (l : list string) : string :=
  match l with
  | [] => ""
  | [x] => x
  | x :: r => x +:+ sep +:+ join sep r
  end.

(** ** Paths: [pathlib.PurePosixPath] *)

(** A path is parsed once into its root (["" ], ["/"] or ["//"]) and its
    components; empty components and ["."] are dropped, [".."] is kept. *)
Record Path : Type := mkPath { root : string; names : list string }.

Module pathlib.

(** Number of leading separators. *)
Fixpoint leading_seps (s : string) : nat :=
  match s with
  | String "/" r => S (leading_seps r)
  | _ => 0
  end.

(** POSIX: exactly two leading slashes are kept as a root of their own,
    any other number is one slash. *)
Definition splitroot (s : string) : string :=
  match leading_seps s with
  | 0 => ""
  | 2 => "//"
  | _ => "/"
  end.

Definition keep (c : string) : bool :=
  negb (String.eqb c "") && negb (String.eqb c ".").

Definition components (s : string) : list string :=
  List.filter keep (split_on "/" s).

(** [Path(s)] *)
Definition parse (s : string) : Path :=
  mkPath (splitroot s) (components s).

(** [Path()] *)
Definition empty : Path := mkPath "" [].

(** [p / s]: an absolute right operand replaces the left one. *)
Definition div (p : Path) (s : string) : Path :=
  let q := parse s in
  if String.eqb (root q) "" then mkPath (root p) (names p ++ names q)
  else q.

(** [str(p)] *)
Definition str (p : Path) : string :=
  match root p, names p with
  | "", [] => "."
  | r, ns => r +:+ join "/" ns
  end.

Definition is_absolute (p : Path) : bool := negb (String.eqb (root p) "").

Fixpoint strip_prefix (pre l : list string) : option (list string) :=
  match pre, l with
  | [], _ => Some l
  | a :: pre', b :: l' =>
      if String.eqb a b then strip_prefix pre' l' else None
  | _ :: _, [] => None
  end.

(** [p.relative_to(base)] *)
Definition relative_to (p base : Path) : result Path :=
  if String.eqb (root p) (root base) then
    match strip_prefix (names base) (names p) with
    | Some rest => Ok (mkPath "" rest)
    | None => Raise ValueError
    end
  else Raise ValueError.

End pathlib.

Notation "p </> s" := (pathlib.div p s) (at level 40, left associativity).

(** ** The process state *)

Inductive node : Type :=
  | File (text : string)
  | Dir.

(** What the process does that an observer sees: lines on standard output,
    child processes, HTTP requests, and the record [handle_errors] leaves
    of a failed call. *)
Inductive event : Type :=
  | Print (line : string)
  | Exec (argv : list string)
  | HttpGet (url : string)
  | Failed (arg : json) (e : exn).

(** Files are keyed by their absolute location, a list of components from
    the file-system root. Symbolic links are not modelled, and [".."] is
    resolved on the components of the path. The executor's work queue holds
    the arguments of the submitted [clone_repo] calls, oldest first. *)
Record World : Type := mkWorld {
  environ : gmap string string;
  cwd : list string;
  fs : gmap (list string) node;
  trace : list event;
  pool : list json
}.

Definition set_cwd (c : list string) (w : World) : World :=
  mkWorld (environ w) c (fs w) (trace w) (pool w).
Definition set_fs (f : gmap (list string) node) (w : World) : World :=
  mkWorld (environ w) (cwd w) f (trace w) (pool w).
Definition emit (e : event) (w : World) : World :=
  mkWorld (environ w) (cwd w) (fs w) (trace w ++ [e]) (pool w).
Definition set_pool (q : list json) (w : World) : World :=
  mkWorld (environ w) (cwd w) (fs w) (trace w) q.

(** ** The monad of the script *)

Definition M (A : Type) : Type := World -> result A * World.

Definition ret {A} (a : A) : M A := fun w => (Ok a, w).
Definition raise {A} (e : exn) : M A := fun w => (Raise e, w).
Definition bind {A B} (m : M A) (k : A -> M B) : M B := fun w =>
  match m w with
  | (Ok a, w') => k a w'
  | (Raise e, w') => (Raise e, w')
  end.
Definition lift {A} (r : result A) : M A := fun w => (r, w).
Definition modify (f : World -> World) : M unit := fun w => (Ok tt, f w).
Definition gets {A} (f : World -> A) : M A := fun w => (Ok (f w), w).

Notation "'let*' x ':=' m 'in' k" := (bind m (fun x => k))
  (at level 10, x name, m at level 100, k at level 200,
   format "'[v' 'let*'  x  ':='  m  'in' '/' k ']'").
Notation "m '>>' k" := (bind m (fun _ => k))
  (at level 100, k at level 200, right associativity).

(** [for x in l: body(x)] *)
Fixpoint for_each {A} (l : list A) (body : A -> M unit) : M unit :=
  match l with
  | [] => ret tt
  | x :: r => body x >> for_each r body
  end.

(** ** Dynamic typing *)

(** [v[k]] *)
Definition subscript (v : json) (k : string) : M json :=
  match v with
  | JObj kvs =>
      match dict_get kvs k with
      | Some x => ret x
      | None => raise (KeyError k)
      end
  | _ => raise TypeError
  end.

(** [v.get(k)] *)
Definition dict_dot_get (v : json) (k : string) : M json :=
  match v with
  | JObj kvs => ret (default JNull (dict_get kvs k))
  | _ => raise AttributeError
  end.

(** [v.startswith(p)] *)
Definition dot_startswith (v : json) (p : string) : M bool :=
  match v with
  | JStr s => ret (startswith s p)
  | _ => raise AttributeError
  end.

Definition chars (s : string) : list json :=
  (fun c => JStr (String c EmptyString)) <$> String.list_ascii_of_string s.

(** [iter(v)]: the elements of a list, the keys of a dict, the characters
    of a string. *)
Definition py_iter (v : json) : M (list json) :=
  match v with
  | JArr l => ret l
  | JObj kvs => ret ((fun kv => JStr kv.1) <$> kvs)
  | JStr s => ret (chars s)
  | _ => raise TypeError
  end.

(** ** [os.environ], [print] *)

(** [environ.get(k)] used as a condition: a variable that is unset, or set
    to the empty string, is false. *)
Definition toggle (env : gmap string string) (k : string) : bool :=
  match env !! k with
  | Some v => negb (String.eqb v "")
  | None => false
  end.

Definition environ_get (k : string) : M bool :=
  gets (fun w => toggle (environ w) k).

Definition print (line : string) : M unit := modify (emit (Print line)).

(** ** The file system *)

Module os.

Definition step (acc : list string) (c : string) : list string :=
  if String.eqb c ".." then removelast acc else acc ++ [c].

(** Where a path leads, from the working directory [c]. *)
Definition resolve (c : list string) (p : Path) : list string :=
  fold_left step (names p) (if pathlib.is_absolute p then [] else c).

(** The root directory always exists. *)
Definition stat (f : gmap (list string) node) (k : list string)
  : option node :=
  match k with
  | [] => Some Dir
  | _ => f !! k
  end.

Definition locate (p : Path) : M (list string) :=
  gets (fun w => resolve (cwd w) p).

(** [p.read_text()] *)
Definition read_text (p : Path) : M string :=
  let* k := locate p in
  let* f := gets fs in
  match stat f k with
  | Some (File s) => ret s
  | Some Dir => raise IsADirectoryError
  | None => raise FileNotFoundError
  end.

(** [p.write_text(s)], [p.write_bytes(s)] *)
Definition write_text (p : Path) (s : string) : M unit :=
  let* k := locate p in
  let* f := gets fs in
  match stat f k with
  | Some Dir => raise IsADirectoryError
  | _ =>
      match stat f (removelast k) with
      | Some Dir => modify (set_fs (<[k := File s]> f))
      | Some (File _) => raise NotADirectoryError
      | None => raise FileNotFoundError
      end
  end.

(** [p.mkdir(exist_ok=True)] *)
Definition mkdir_exist_ok (p : Path) : M unit :=
  let* k := locate p in
  let* f := gets fs in
  match stat f k with
  | Some Dir => ret tt
  | Some (File _) => raise FileExistsError
  | None =>
      match stat f (removelast k) with
      | Some Dir => modify (set_fs (<[k := Dir]> f))
      | Some (File _) => raise NotADirectoryError
      | None => raise FileNotFoundError
      end
  end.

(** [chdir(p)] *)
Definition chdir (p : Path) : M unit :=
  let* k := locate p in
  let* f := gets fs in
  match stat f k with
  | Some Dir => modify (set_cwd k)
  | Some (File _) => raise NotADirectoryError
  | None => raise FileNotFoundError
  end.

End os.

(** ** What the script calls and does not define *)

(** The [json] library, the formatting of a value inside an f-string, the
    [Model] class of [model.py], and the three remote parties: the git
    hosts, the web servers that [wget] reaches, and the server of the index.

    - [loads s] is [None] when [json.loads] raises;
    - [format v] is [str(v)] for a value that is not a string;
    - [Model config path github] is [Model(config, path, github).as_json],
      or the exception the constructor or the property raises. The class
      computes on its arguments and leaves [config] as it was;
    - [remote url] is the tree a clone of [url] checks out, [None] when
      the clone fails;
    - [web url] is the exit status of a download ([true] for 0) and what
      it leaves in the output file;
    - [http url] is the body of the response, [None] when the request
      raises. *)
Class Externals : Type := {
  loads : string -> option json;
  dumps : json -> string;
  format : json -> string;
  Model : json -> Path -> json -> result json;
  remote : string -> option (list (list string * node));
  web : string -> bool * string;
  http : string -> option string
}.

(** ** Child processes *)

Module subprocess.

(** The non-empty prefixes of a location, shortest first. *)
Fixpoint prefixes (k : list string) : list (list string) :=
  match k with
  | [] => []
  | x :: r => [x] :: (cons x <$> prefixes r)
  end.

Definition not_file (f : gmap (list string) node) (k : list string) : bool :=
  match f !! k with
  | Some (File _) => false
  | _ => true
  end.

Definition empty_dir (f : gmap (list string) node) (t : list string) : bool :=
  bool_decide (map_Forall (fun k _ => ¬ (t `prefix_of` k ∧ k ≠ t)) f).

(** git clones into a destination that does not exist or is an empty
    directory, and creates the leading directories. *)
Definition clonable (f : gmap (list string) node) (t : list string) : bool :=
  forallb (not_file f) (prefixes t)
  && match f !! t with
     | None => true
     | Some _ => empty_dir f t
     end.

Definition mkdirs (t : list string) (f : gmap (list string) node)
  : gmap (list string) node :=
  foldr (fun d g => <[d := Dir]> g) f (prefixes t).

Definition install (t : list string) (tree : list (list string * node))
  (f : gmap (list string) node) : gmap (list string) node :=
  foldr (fun e g => <[t ++ e.1 := e.2]> g) (mkdirs t f) tree.

Section Programs.
Context `{Externals}.

(** [git clone --depth=1 url name], run in the working directory. *)
Definition git_clone (url name : string) : M unit := fun w =>
  let t := os.resolve (cwd w) (pathlib.parse name) in
  match remote url with
  | Some tree =>
      if clonable (fs w) t
      then (Ok tt, set_fs (install t tree (fs w)) w)
      else (Raise CalledProcessError, w)
  | None => (Raise CalledProcessError, w)
  end.

(** [wget url -O dest]: the output file is opened first, and holds
    whatever the transfer delivered. *)
Definition wget (url dest : string) : M unit := fun w =>
  let k := os.resolve (cwd w) (pathlib.parse dest) in
  match os.stat (fs w) k, os.stat (fs w) (removelast k) with
  | Some Dir, _ => (Raise CalledProcessError, w)
  | _, Some Dir =>
      let r := web url in
      (if r.1 then Ok tt else Raise CalledProcessError,
       set_fs (<[k := File r.2]> (fs w)) w)
  | _, _ => (Raise CalledProcessError, w)
  end.

(** The two programs that the script starts. *)
Definition program (argv : list string) : M unit :=
  match argv with
  | ["git"; "clone"; "--depth=1"; url; name] => git_clone url name
  | ["wget"; url; "-O"; dest] => wget url dest
  | _ => raise FileNotFoundError
  end.

(** [subprocess.run(argv, check=True)]: a non-zero exit status raises. *)
Definition run (argv : list string) : M unit :=
  modify (emit (Exec argv)) >>
  program argv.

End Programs.

End subprocess.

(** ** The script *)

(** Modelled from the spec: [handle_errors] of [util.py], the decorator of
    [clone_repo]. An exception raised by the call is caught here, recorded
    with the argument of the call, and the call returns as failed; nothing
    is raised to the caller. *)
Definition handle_errors (f : json -> M unit) (arg : json) : M bool := fun w =>
  match f arg w with
  | (Ok _, w') => (Ok true, w')
  | (Raise e, w') => (Ok false, emit (Failed arg e) w')
  end.

Definition MODEL_JSON_URL : string :=
  "https://raw.githubusercontent.com/modelhub-ai/modelhub/master/models.json".

(** The globals that [__main__] sets: [curr = Path()] and the two results
    of [safe_dir]. *)
Definition curr : Path := pathlib.empty.
Definition repos_dir : Path := curr </> "../repos".
Definition json_dir : Path := curr </> "../json".

(** [ThreadPoolExecutor(max_workers=5)] *)
Definition max_workers : nat := 5.

Section Script.
Context `{Externals}.

Definition json_loads (s : string) : M json :=
  match loads s with
  | Some v => ret v
  | None => raise JSONDecodeError
  end.

(** [requests.get(url, headers=headers, timeout=60)], then [.content] *)
Definition requests_get (url : string) : M string :=
  modify (emit (HttpGet url)) >>
  match http url with
  | Some body => ret body
  | None => raise RequestException
  end.

Definition get_model_index : M json :=
  let* resp := requests_get MODEL_JSON_URL in
  os.write_text (json_dir </> "models.json") resp >>
  json_loads resp.

(** [" ".join(arg_list)] wants strings. *)
Fixpoint str_list (l : list json) : M (list string) :=
  match l with
  | [] => ret []
  | JStr s :: r => let* r' := str_list r in ret (s :: r')
  | _ :: _ => raise TypeError
  end.

Definition subprocess_run (arg_list : list json) : M unit :=
  let* argv := str_list arg_list in
  print ("$ " +:+ join " " argv) >>
  subprocess.run argv.

Definition download_file (url : json) (dest : Path) : M unit :=
  let args := [JStr "wget"; url; JStr "-O"; JStr (pathlib.str dest)] in
  subprocess_run args >>
  print "0".

(** [f"{name}"] *)
Definition fstring (v : json) : string :=
  match v with
  | JStr s => s
  | _ => format v
  end.

(** [repos_dir / name] *)
Definition path_div (p : Path) (v : json) : M Path :=
  match v with
  | JStr s => ret (p </> s)
  | _ => raise TypeError
  end.

(** [dest[1:]] *)
Definition slice1 (v : json) : json :=
  match v with
  | JStr s => JStr (drop1 s)
  | _ => v
  end.

(** The body of the loop over [data["external_contrib_files"]]. *)
Definition external_file (repo_root : Path) (external_files : json) : M unit :=
  let* src := subscript external_files "src_url" in
  let* is_url := dot_startswith src "http" in
  if negb is_url then ret tt
  else
    let* dest := subscript external_files "dest_file_path" in
    let* rooted := dot_startswith dest "/" in
    let dest := if rooted then slice1 dest else dest in
    let* realpath := path_div repo_root dest in
    let* skip := environ_get "MHTORRENT_SKIP_DOWNLOAD" in
    if skip then print "skipping download"
    else
      print ("downloading " +:+ fstring src +:+ " to " +:+ pathlib.str realpath) >>
      download_file src realpath.

(** Lines 88 to 105. *)
Definition external_contrib_files (data : json) (repo_root : Path) : M unit :=
  let* listed := dict_dot_get data "external_contrib_files" in
  if truthy listed then
    let* files := subscript data "external_contrib_files" in
    let* l := py_iter files in
    for_each l (external_file repo_root)
  else ret tt.

(** Lines 106 to 114. *)
Definition write_metadata (github_repo name : json) : M unit :=
  let* repo_root := path_div repos_dir name in
  let* text := os.read_text (repo_root </> "contrib_src/model/config.json") in
  let* config := json_loads text in
  let* model_metadata_dir := path_div json_dir name in
  os.mkdir_exist_ok model_metadata_dir >>
  let general_model_metadata_path := model_metadata_dir </> "model.json" in
  let mh_metadata_path := model_metadata_dir </> "modelhub.json" in
  let* rel := lift (pathlib.relative_to mh_metadata_path model_metadata_dir) in
  let* as_json := lift (Model config rel github_repo) in
  os.write_text general_model_metadata_path (dumps as_json) >>
  os.write_text mh_metadata_path (dumps config).

(** The function that [handle_errors] decorates. *)
Definition clone_repo_body (model_meta : json) : M unit :=
  let* github_repo := subscript model_meta "github" in
  let* name := subscript model_meta "name" in
  let* skip := environ_get "MHTORRENT_SKIP_CLONE" in
  (if negb skip
   then subprocess_run [JStr "git"; JStr "clone"; JStr "--depth=1";
                        github_repo; JStr (fstring name)]
   else ret tt) >>
  let* repo_root := path_div repos_dir name in
  let init_file := repo_root </> "init/init.json" in
  let* text := os.read_text init_file in
  let* data := json_loads text in
  external_contrib_files data repo_root >>
  write_metadata github_repo name.

Definition clone_repo : json -> M bool := handle_errors clone_repo_body.

Definition safe_dir (where_ : string) : M Path :=
  let res := curr </> where_ in
  os.mkdir_exist_ok res >>
  ret res.

(** [exc.submit(clone_repo, model_meta)]: the call joins the queue of the
    executor; the future it returns is dropped. *)
Definition submit (model_meta : json) : M unit :=
  modify (fun w => set_pool (pool w ++ [model_meta]) w).

Definition create_model_repos : M unit :=
  let models_file := json_dir </> "models.json" in
  let* use_local := environ_get "MHTORRENT_USE_LOCAL_MODEL_INDEX" in
  let* models :=
    (if use_local
     then let* text := os.read_text models_file in json_loads text
     else get_model_index) in
  os.chdir repos_dir >>
  let* l := py_iter models in
  for_each l submit >>
  os.chdir curr.

Definition main : M unit :=
  safe_dir "../repos" >>
  safe_dir "../json" >>
  create_model_repos.

(** The worker threads take the queued calls and run them. The script
    never joins them; the interpreter does when it exits. Here the calls
    run one after the other, in the order of submission: one of the
    schedules of the pool. The list returned holds, for each call, whether
    it succeeded. *)
Fixpoint run_calls (l : list json) : M (list bool) :=
  match l with
  | [] => ret []
  | model_meta :: r =>
      let* ok := clone_repo model_meta in
      let* oks := run_calls r in
      ret (ok :: oks)
  end.

Definition run_pool : M (list bool) := fun w =>
  run_calls (pool w) (set_pool [] w).

(** The whole process, from start to exit. *)
Definition script : M (list bool) := main >> run_pool.

End Script.

(** ** The [json] library on ASCII documents *)

(** [loads] and [dumps] as Python has them, on documents whose numbers are
    integers and whose strings hold no [\u] escape; characters are code
    points below 256. [dumps] uses the default separators, [", "] and
    [": "], and escapes what is not printable ASCII. *)
Module pyjson.

Definition dq : ascii := "034".
Definition bsl : ascii := "092".

Definition is_ws (c : ascii) : bool :=
  Ascii.eqb c " " || Ascii.eqb c "009" || Ascii.eqb c "010" || Ascii.eqb c "013".

Fixpoint skip_ws (s : string) : string :=
  match s with
  | String c r => if is_ws c then skip_ws r else s
  | EmptyString => s
  end.

Definition unescape (c : ascii) : option ascii :=
  if Ascii.eqb c dq then Some dq
  else if Ascii.eqb c bsl then Some bsl
  else if Ascii.eqb c "/" then Some "/"%char
  else if Ascii.eqb c "b" then Some "008"%char
  else if Ascii.eqb c "f" then Some "012"%char
  else if Ascii.eqb c "n" then Some "010"%char
  else if Ascii.eqb c "r" then Some "013"%char
  else if Ascii.eqb c "t" then Some "009"%char
  else None.

(** From after the opening quote to after the closing one. *)
Fixpoint scan_string (s : string) : option (string * string) :=
  match s with
  | EmptyString => None
  | String c r =>
      if Ascii.eqb c dq then Some (EmptyString, r)
      else if Ascii.eqb c bsl then
        match r with
        | String e r' =>
            match unescape e, scan_string r' with
            | Some x, Some (t, rest) => Some (String x t, rest)
            | _, _ => None
            end
        | EmptyString => None
        end
      else if (nat_of_ascii c <? 32)%nat then None
      else match scan_string r with
           | Some (t, rest) => Some (String c t, rest)
           | None => None
           end
  end.

Definition digit (c : ascii) : option Z :=
  let n := nat_of_ascii c in
  if (48 <=? n)%nat && (n <=? 57)%nat then Some (Z.of_nat (n - 48)) else None.

Fixpoint scan_digits (acc : Z) (s : string) : Z * string :=
  match s with
  | String c r =>
      match digit c with
      | Some d => scan_digits (10 * acc + d)%Z r
      | None => (acc, s)
      end
  | EmptyString => (acc, s)
  end.

(** An integer: [0], or a non-zero digit and more digits. A fraction or
    an exponent after it is outside these documents. *)
Definition scan_int (s : string) : option (Z * string) :=
  match s with
  | String c r =>
      match digit c with
      | Some 0%Z => Some (0%Z, r)
      | Some d => Some (scan_digits d r)
      | None => None
      end
  | EmptyString => None
  end.

Definition no_fraction (s : string) : bool :=
  match s with
  | String c _ => negb (Ascii.eqb c "." || Ascii.eqb c "e" || Ascii.eqb c "E")
  | EmptyString => true
  end.

Definition scan_number (s : string) : option (json * string) :=
  let signed :=
    match s with
    | String "-" r =>
        match scan_int r with
        | Some (n, rest) => Some ((- n)%Z, rest)
        | None => None
        end
    | _ => scan_int s
    end in
  match signed with
  | Some (n, rest) => if no_fraction rest then Some (JNum n, rest) else None
  | None => None
  end.

Definition literal (word : string) (v : json) (s : string)
  : option (json * string) :=
  if String.prefix word s
  then Some (v, String.substring (String.length word)
                  (String.length s - String.length word) s)
  else None.

Fixpoint value (fuel : nat) (s : string) {struct fuel} : option (json * string) :=
  match fuel with
  | O => None
  | S n =>
      match skip_ws s with
      | String "[" r =>
          match skip_ws r with
          | String "]" r' => Some (JArr [], r')
          | r' => elements n [] r'
          end
      | String "{" r =>
          match skip_ws r with
          | String "}" r' => Some (JObj [], r')
          | r' => members n [] r'
          end
      | String "n" _ as t => literal "null" JNull t
      | String "t" _ as t => literal "true" (JBool true) t
      | String "f" _ as t => literal "false" (JBool false) t
      | String c r as t =>
          if Ascii.eqb c dq then
            match scan_string r with
            | Some (x, rest) => Some (JStr x, rest)
            | None => None
            end
          else scan_number t
      | EmptyString => None
      end
  end
with elements (fuel : nat) (acc : list json) (s : string) {struct fuel}
  : option (json * string) :=
  match fuel with
  | O => None
  | S n =>
      match value n s with
      | Some (v, r) =>
          match skip_ws r with
          | String "," r' => elements n (acc ++ [v]) r'
          | String "]" r' => Some (JArr (acc ++ [v]), r')
          | _ => None
          end
      | None => None
      end
  end
with members (fuel : nat) (acc : list (string * json)) (s : string) {struct fuel}
  : option (json * string) :=
  match fuel with
  | O => None
  | S n =>
      match skip_ws s with
      | String c r =>
          if Ascii.eqb c dq then
            match scan_string r with
            | Some (k, r1) =>
                match skip_ws r1 with
                | String ":" r2 =>
                    match value n r2 with
                    | Some (v, r3) =>
                        match skip_ws r3 with
                        | String "," r4 => members n (dict_set acc k v) r4
                        | String "}" r4 => Some (JObj (dict_set acc k v), r4)
                        | _ => None
                        end
                    | None => None
                    end
                | _ => None
                end
            | None => None
            end
          else None
      | EmptyString => None
      end
  end.

Definition loads (s : string) : option json :=
  match value (2 * String.length s + 2) s with
  | Some (v, rest) =>
      match skip_ws rest with
      | EmptyString => Some v
      | _ => None
      end
  | None => None
  end.

Definition hex (n : nat) : ascii :=
  ascii_of_nat (if (n <? 10)%nat then 48 + n else 87 + n).

Definition escape (c : ascii) : string :=
  let n := nat_of_ascii c in
  if Ascii.eqb c dq then String bsl (String dq EmptyString)
  else if Ascii.eqb c bsl then String bsl (String bsl EmptyString)
  else if (n =? 10)%nat then String bsl "n"
  else if (n =? 13)%nat then String bsl "r"
  else if (n =? 9)%nat then String bsl "t"
  else if (n =? 12)%nat then String bsl "f"
  else if (n =? 8)%nat then String bsl "b"
  else if (32 <=? n)%nat && (n <=? 126)%nat then String c EmptyString
  else String bsl ("u00" +:+ String (hex (n / 16)) (String (hex (n mod 16)) EmptyString)).

Fixpoint escape_all (s : string) : string :=
  match s with
  | EmptyString => EmptyString
  | String c r => escape c +:+ escape_all r
  end.

Definition quote (s : string) : string :=
  String dq (escape_all s +:+ String dq EmptyString).

Definition decimal (n : Z) : string := NilZero.string_of_int (Z.to_int n).

Fixpoint dumps (v : json) : string :=
  match v with
  | JNull => "null"
  | JBool true => "true"
  | JBool false => "false"
  | JNum n => decimal n
  | JStr s => quote s
  | JArr l => "[" +:+ join ", " (List.map dumps l) +:+ "]"
  | JObj kvs =>
      "{" +:+ join ", " (List.map (fun kv => quote kv.1 +:+ ": " +:+ dumps kv.2) kvs)
      +:+ "}"
  end.

End pyjson.

Definition q (s : string) : string := pyjson.quote s.

(** ** A run of the script on a small index *)

Module demo.

Definition index_text : string :=
  "[{" +:+ q "id" +:+ ": " +:+ q "1" +:+ ", " +:+ q "name" +:+ ": " +:+ q "m1" +:+ ", "
  +:+ q "github" +:+ ": " +:+ q "https://x/m1.git" +:+ "}, {"
  +:+ q "name" +:+ ": " +:+ q "m2" +:+ ", "
  +:+ q "github" +:+ ": " +:+ q "https://x/m2.git" +:+ "}, {"
  +:+ q "name" +:+ ": " +:+ q "m3" +:+ ", "
  +:+ q "github" +:+ ": " +:+ q "https://x/m3.git" +:+ "}]".

Definition config_text : string := "{" +:+ q "foo" +:+ ":" +:+ q "bar" +:+ "}".

Definition init_assets : string :=
  "{" +:+ q "external_contrib_files" +:+ ": [{"
  +:+ q "src_url" +:+ ": " +:+ q "TODO fill in" +:+ ", "
  +:+ q "dest_file_path" +:+ ": " +:+ q "/contrib_src/model/todo" +:+ "}, {"
  +:+ q "src_url" +:+ ": " +:+ q "https://h/w.bin" +:+ ", "
  +:+ q "dest_file_path" +:+ ": " +:+ q "/contrib_src/model/w.bin" +:+ "}]}".

Definition tree (init config : string) : list (list string * node) :=
  [ (["init"], Dir);
    (["init"; "init.json"], File init);
    (["contrib_src"], Dir);
    (["contrib_src"; "model"], Dir);
    (["contrib_src"; "model"; "config.json"], File config) ].

(** [m1] lists two external files, [m2] has a [config.json] cut short,
    [m3] lists nothing. *)
Definition repositories (url : string) : option (list (list string * node)) :=
  if String.eqb url "https://x/m1.git" then Some (tree init_assets config_text)
  else if String.eqb url "https://x/m2.git" then Some (tree "{}" "{")
  else if String.eqb url "https://x/m3.git" then Some (tree "{}" "[1, 2]")
  else None.

(** A stand-in for [model.py]: the record keeps the path and the URL it
    was given. *)
Definition record (config : json) (path : Path) (github : json) : result json :=
  Ok (JObj [("modelhub", JStr (pathlib.str path)); ("github", github)]).

#[export] Instance externals : Externals := {|
  loads := pyjson.loads;
  dumps := pyjson.dumps;
  format := pyjson.dumps;
  Model := record;
  remote := repositories;
  web := fun url => if String.eqb url "https://h/w.bin" then (true, "weights")
                    else (false, "");
  http := fun url => if String.eqb url MODEL_JSON_URL then Some index_text
                     else None
|}.

(** The process starts in [/work/scripts]. *)
Definition start (env : gmap string string) : World :=
  mkWorld env ["work"; "scripts"]
    {[ ["work"] := Dir; ["work"; "scripts"] := Dir ]} [] [].

End demo.

(** The same surroundings when the server answers the request for the
    index with a page that is not JSON. *)
Module garbled.

Definition page : string := "<html>busy</html>".

Definition externals : Externals := {|
  loads := pyjson.loads;
  dumps := pyjson.dumps;
  format := pyjson.dumps;
  Model := demo.record;
  remote := demo.repositories;
  web := fun _ => (false, "");
  http := fun url => if String.eqb url MODEL_JSON_URL then Some page else None
|}.

End garbled.

(** * The vocabulary of the properties *)

(** ** Traces and what a call leaves alone *)

Definition is_failed (e : event) : bool :=
  match e with
  | Failed _ _ => true
  | _ => false
  end.

Definition failures (t : list event) : nat := length (List.filter is_failed t).

(** [later w w']: [w'] is [w] after some steps that did not change the
    environment, the working directory or the queue, and that recorded no
    failed call. *)
Record later (w w' : World) : Prop := mkLater {
  later_environ : environ w' = environ w;
  later_cwd : cwd w' = cwd w;
  later_pool : pool w' = pool w;
  later_trace : exists t, trace w' = trace w ++ t /\ failures t = 0
}.

(** A computation is [tame] when every run of it ends in a [later] state. *)
Definition tame {A} (m : M A) : Prop :=
  forall w r w', m w = (r, w') -> later w w'.

(** The lemmas that show a computation [tame] go to a hint database;
    [tame] the tactic searches it. *)
Create HintDb tame discriminated.

Ltac tame := unfold environ_get, os.locate; auto 20 with tame.

Section Vocabulary.
Context `{Externals}.

(** The trace only grows. *)
Definition grows {A} (m : M A) : Prop :=
  forall w r w', m w = (r, w') -> exists t, trace w' = trace w ++ t.

(** What the loop does with an entry once it has decided to fetch it. *)
Definition fetch (src : string) (realpath : Path) : M unit :=
  let* skip := environ_get "MHTORRENT_SKIP_DOWNLOAD" in
  if skip then print "skipping download"
  else
    print ("downloading " +:+ src +:+ " to " +:+ pathlib.str realpath) >>
    download_file (JStr src) realpath.

(** The destination of an entry, as the loop computes it. *)
Definition destination (repo_root : Path) (dest : string) : Path :=
  repo_root </> (if startswith dest "/" then drop1 dest else dest).

(** An entry that the loop fetches: a dict with a [src_url] that starts
    with [http] and a [dest_file_path], both strings. *)
Definition valid_entry (e : json) : option (string * string) :=
  match e with
  | JObj kvs =>
      match dict_get kvs "src_url", dict_get kvs "dest_file_path" with
      | Some (JStr src), Some (JStr dest) =>
          if startswith src "http" then Some (src, dest) else None
      | _, _ => None
      end
  | _ => None
  end.

(** The branch of [create_model_repos] that reads the saved index. *)
Definition saved_index : M json :=
  let* text := os.read_text (json_dir </> "models.json") in
  json_loads text.

(** What [create_model_repos] does with the index. *)
Definition dispatch (models : json) : M unit :=
  os.chdir repos_dir >>
  let* l := py_iter models in
  for_each l submit >>
  os.chdir curr.

End Vocabulary.

(** ** Packages side by side *)

(** The first entry of a tree for a relative location. *)
Fixpoint tree_get (tree : list (list string * node)) (rel : list string)
  : option node :=
  match tree with
  | [] => None
  | e :: r => if decide (e.1 = rel) then Some e.2 else tree_get r rel
  end.

(** A package as the index and its repository describe it: the entry of
    the index, and the two documents the repository holds. *)
Record package : Type := mkPackage {
  pk_meta : list (string * json);
  pk_name : string;
  pk_url : string;
  pk_init : string;
  pk_config : string
}.

(** A name that is one component of a path. *)
Definition plain (n : string) : Prop :=
  pathlib.parse n = mkPath "" [n] /\ n <> "..".

(** An entry of [external_contrib_files] that starts no download: a note
    in place of a URL, or any well-formed entry when downloads are off. *)
Definition inert_entry (skip : bool) (e : json) : bool :=
  match e with
  | JObj kvs =>
      match dict_get kvs "src_url" with
      | Some (JStr src) =>
          if startswith src "http"
          then skip && match dict_get kvs "dest_file_path" with
                       | Some (JStr _) => true
                       | _ => false
                       end
          else true
      | _ => false
      end
  | _ => false
  end.

Definition inert (skip : bool) (data : json) : bool :=
  match data with
  | JObj kvs =>
      match dict_get kvs "external_contrib_files" with
      | Some (JArr l) => forallb (inert_entry skip) l
      | Some v => negb (truthy v)
      | None => true
      end
  | _ => false
  end.

Section Layout.
Context `{Externals}.

(** The directory that holds [repos] and [json]. *)
Variable B : list string.

Definition repos : list string := B ++ ["repos"].
Definition jsons : list string := B ++ ["json"].

(** The state that [create_model_repos] leaves: the process is in
    [repos], which exists with the directories above it, next to
    [json]. *)
Definition base (w : World) : Prop :=
  cwd w = repos
  /\ Forall (fun d => fs w !! d = Some Dir) (subprocess.prefixes repos)
  /\ fs w !! jsons = Some Dir.

Definition config_json : list string := ["contrib_src"; "model"; "config.json"].
Definition init_json : list string := ["init"; "init.json"].

(** The repository of [p] can be had: it is there when clones are off,
    and otherwise the host serves it and its place is free. Its
    [init.json] starts no download, and nothing stands in the way of its
    metadata. *)
Definition ready (w : World) (p : package) : Prop :=
  plain (pk_name p)
  /\ dict_get (pk_meta p) "github" = Some (JStr (pk_url p))
  /\ dict_get (pk_meta p) "name" = Some (JStr (pk_name p))
  /\ (if toggle (environ w) "MHTORRENT_SKIP_CLONE"
      then fs w !! (repos ++ pk_name p :: init_json) = Some (File (pk_init p))
           /\ fs w !! (repos ++ pk_name p :: config_json) = Some (File (pk_config p))
      else exists tree,
             remote (pk_url p) = Some tree
             /\ fs w !! (repos ++ [pk_name p]) = None
             /\ tree_get tree init_json = Some (File (pk_init p))
             /\ tree_get tree config_json = Some (File (pk_config p)))
  /\ (exists data,
        loads (pk_init p) = Some data
        /\ inert (toggle (environ w) "MHTORRENT_SKIP_DOWNLOAD") data = true)
  /\ subprocess.not_file (fs w) (jsons ++ [pk_name p]) = true
  /\ fs w !! (jsons ++ [pk_name p; "model.json"]) <> Some Dir
  /\ fs w !! (jsons ++ [pk_name p; "modelhub.json"]) <> Some Dir.

(** Whether the metadata of [p] can be made. *)
Definition sound (p : package) : bool :=
  match loads (pk_config p) with
  | Some config =>
      match Model config (mkPath "" ["modelhub.json"]) (JStr (pk_url p)) with
      | Ok _ => true
      | Raise _ => false
      end
  | None => false
  end.

(** The two files of [p] under [json] are as they should be. *)
Definition outputs (w : World) (p : package) : Prop :=
  exists config record,
    loads (pk_config p) = Some config
    /\ Model config (mkPath "" ["modelhub.json"]) (JStr (pk_url p)) = Ok record
    /\ fs w !! (jsons ++ [pk_name p; "modelhub.json"]) = Some (File (dumps config))
    /\ fs w !! (jsons ++ [pk_name p; "model.json"]) = Some (File (dumps record)).

(** A call for the package [n] changes nothing outside [repos/n] and
    [json/n]. *)
Definition frame (n : string) (w w' : World) : Prop :=
  forall k, ~ (repos ++ [n]) `prefix_of` k -> ~ (jsons ++ [n]) `prefix_of` k ->
            fs w' !! k = fs w !! k.

(** The calls for the packages [ns] change nothing outside their
    directories. *)
Definition frames (ns : list string) (w w' : World) : Prop :=
  forall k,
    Forall (fun n => ~ (repos ++ [n]) `prefix_of` k
                     /\ ~ (jsons ++ [n]) `prefix_of` k) ns ->
    fs w' !! k = fs w !! k.

End Layout.

(** ** The small index, run *)

Module run.

Import demo.

Definition m1 : package :=
  mkPackage [("id", JStr "1"); ("name", JStr "m1"); ("github", JStr "https://x/m1.git")]
    "m1" "https://x/m1.git" init_assets config_text.
Definition m2 : package :=
  mkPackage [("name", JStr "m2"); ("github", JStr "https://x/m2.git")]
    "m2" "https://x/m2.git" "{}" "{".
Definition m3 : package :=
  mkPackage [("name", JStr "m3"); ("github", JStr "https://x/m3.git")]
    "m3" "https://x/m3.git" "{}" "[1, 2]".

Definition descriptor (p : package) : json := JObj (pk_meta p).

Definition no_download : gmap string string :=
  {[ "MHTORRENT_SKIP_DOWNLOAD" := "1" ]}.
Definition saved : gmap string string :=
  {[ "MHTORRENT_USE_LOCAL_MODEL_INDEX" := "1" ]}.
Definition no_clone : gmap string string :=
  {[ "MHTORRENT_SKIP_CLONE" := "1" ]}.

(** After the two calls of [safe_dir]. *)
Definition made (env : gmap string string) : World :=
  ((safe_dir "../repos" >> safe_dir "../json") (start env)).2.

(** After [main]: the calls are in the queue. *)
Definition queued (env : gmap string string) : World :=
  (main (start env)).2.

(** After the pool has run. *)
Definition done_ (env : gmap string string) : World :=
  (script (start env)).2.

Definition with_environ (env : gmap string string) (w : World) : World :=
  mkWorld env (cwd w) (fs w) (trace w) (pool w).

End run.

(** A statement about the small index is settled by running it. *)
Ltac run_it := vm_compute; repeat split; reflexivity.

Section Samples.
Import demo run.

(** The events of [w'] that [w] did not have. *)
Definition news (w w' : World) : list event :=
  drop (length (trace w)) (trace w').

Definition note : json :=
  JObj [("src_url", JStr "TODO fill in"); ("dest_file_path", JStr "/x")].

Definition weights : json :=
  JObj [("src_url", JStr "https://h/w.bin");
        ("dest_file_path", JStr "/contrib_src/x")].

End Samples.

(** * Properties *)

(** ** The libraries, on examples *)

Example div_relative :
  pathlib.str (pathlib.parse "../repos" </> "m1" </> "init/init.json")
  = "../repos/m1/init/init.json".
Proof. reflexivity. Qed.

Example div_absolute :
  pathlib.str (pathlib.parse "../repos" </> "/etc/x") = "/etc/x".
Proof. reflexivity. Qed.

Example div_doubled :
  pathlib.str (pathlib.parse "a" </> "b//c/./d/") = "a/b/c/d".
Proof. reflexivity. Qed.

Example loads_object :
  pyjson.loads ("{" +:+ q "foo" +:+ ":" +:+ q "bar" +:+ "}")
  = Some (JObj [("foo", JStr "bar")]).
Proof. vm_compute. reflexivity. Qed.

Example loads_nested :
  pyjson.loads (" [1, -20, true ,null, {" +:+ q "a" +:+ ": [ ]}, {}] ")
  = Some (JArr [JNum 1; JNum (-20); JBool true; JNull; JObj [("a", JArr [])]; JObj []]).
Proof. vm_compute. reflexivity. Qed.

Example loads_trailing_comma : pyjson.loads "[1,]" = None.
Proof. vm_compute. reflexivity. Qed.

Example loads_truncated : pyjson.loads ("{" +:+ q "foo" +:+ ":") = None.
Proof. vm_compute. reflexivity. Qed.

Example dumps_object :
  pyjson.dumps (JObj [("foo", JStr "bar"); ("n", JArr [JNum 1; JNum (-2)])])
  = "{" +:+ q "foo" +:+ ": " +:+ q "bar" +:+ ", " +:+ q "n" +:+ ": [1, -2]}".
Proof. vm_compute. reflexivity. Qed.


(** ** Runs of monadic code *)

Lemma bind_ok {A B} (m : M A) (k : A -> M B) w a w1 :
  m w = (Ok a, w1) -> bind m k w = k a w1.
Proof. intros E. unfold bind. by rewrite E. Qed.

Lemma bind_raise {A B} (m : M A) (k : A -> M B) w e w1 :
  m w = (Raise e, w1) -> bind m k w = (Raise e, w1).
Proof. intros E. unfold bind. by rewrite E. Qed.

Lemma bind_ext_at {A B} (m m' : M A) (k k' : A -> M B) w :
  m w = m' w ->
  (forall a w1, m' w = (Ok a, w1) -> k a w1 = k' a w1) ->
  bind m k w = bind m' k' w.
Proof.
  intros Em Hk. unfold bind. rewrite Em.
  destruct (m' w) as [[a|e] w1]; [by apply Hk | done].
Qed.

Lemma bind_inv_ok {A B} (m : M A) (k : A -> M B) w b w' :
  bind m k w = (Ok b, w') ->
  exists a w1, m w = (Ok a, w1) /\ k a w1 = (Ok b, w').
Proof.
  unfold bind. destruct (m w) as [[a|e] w1]; intros E.
  - by exists a, w1.
  - discriminate.
Qed.

Lemma bind_inv {A B} (m : M A) (k : A -> M B) w r w' :
  bind m k w = (r, w') ->
  (exists a w1, m w = (Ok a, w1) /\ k a w1 = (r, w'))
  \/ (exists e, m w = (Raise e, w') /\ r = Raise e).
Proof.
  unfold bind. destruct (m w) as [[a|e] w1]; intros E.
  - left. by exists a, w1.
  - right. exists e. by inversion E.
Qed.

(** ** Tame computations *)

Lemma later_refl w : later w w.
Proof. split; try done. exists []. by rewrite app_nil_r. Qed.

Lemma failures_app t1 t2 : failures (t1 ++ t2) = failures t1 + failures t2.
Proof. unfold failures. by rewrite List.filter_app, length_app. Qed.

Lemma later_trans w1 w2 w3 : later w1 w2 -> later w2 w3 -> later w1 w3.
Proof.
  intros [E1 C1 P1 (t1 & T1 & F1)] [E2 C2 P2 (t2 & T2 & F2)].
  split; try congruence.
  exists (t1 ++ t2). split.
  - by rewrite T2, T1, app_assoc.
  - rewrite failures_app. lia.
Qed.

Lemma later_emit w e : is_failed e = false -> later w (emit e w).
Proof.
  intros F. split; try done. exists [e]. split; [done|].
  unfold failures. simpl. by rewrite F.
Qed.

Lemma later_set_fs w f : later w (set_fs f w).
Proof. split; try done. exists []. by rewrite app_nil_r. Qed.

Lemma tame_ret {A} (a : A) : tame (ret a).
Proof. intros w r w' E. inversion E. apply later_refl. Qed.

Lemma tame_raise {A} e : tame (@raise A e).
Proof. intros w r w' E. inversion E. apply later_refl. Qed.

Lemma tame_lift {A} (x : result A) : tame (lift x).
Proof. intros w r w' E. inversion E. apply later_refl. Qed.

Lemma tame_gets {A} (f : World -> A) : tame (gets f).
Proof. intros w r w' E. inversion E. apply later_refl. Qed.

Lemma tame_bind {A B} (m : M A) (k : A -> M B) :
  tame m -> (forall a, tame (k a)) -> tame (bind m k).
Proof.
  intros Hm Hk w r w' E.
  destruct (bind_inv _ _ _ _ _ E) as [(a & w1 & E1 & E2) | (e & E1 & _)].
  - eapply later_trans; [by eapply Hm | by eapply Hk].
  - by eapply Hm.
Qed.

Lemma tame_for_each {A} (l : list A) (body : A -> M unit) :
  (forall a, tame (body a)) -> tame (for_each l body).
Proof.
  intros Hb. induction l as [|x l IH]; simpl.
  - apply tame_ret.
  - apply tame_bind; [apply Hb | intros _; apply IH].
Qed.

Lemma tame_print s : tame (print s).
Proof. intros w r w' E. inversion E. by apply later_emit. Qed.

Lemma tame_modify_fs f : tame (modify (set_fs f)).
Proof. intros w r w' E. inversion E. apply later_set_fs. Qed.

Lemma tame_if {A} (b : bool) (m1 m2 : M A) :
  tame m1 -> tame m2 -> tame (if b then m1 else m2).
Proof. by destruct b. Qed.

#[export] Hint Resolve tame_ret tame_raise tame_lift tame_gets tame_print
  tame_modify_fs tame_for_each tame_if : tame.
#[export] Hint Extern 2 (tame (bind _ _)) => apply tame_bind; [|intros ?] : tame.
#[export] Hint Extern 4 (tame (match ?x with _ => _ end)) => destruct x : tame.

Lemma tame_subscript v k : tame (subscript v k).
Proof. unfold subscript. tame. Qed.

Lemma tame_dict_dot_get v k : tame (dict_dot_get v k).
Proof. unfold dict_dot_get. tame. Qed.

Lemma tame_dot_startswith v p : tame (dot_startswith v p).
Proof. unfold dot_startswith. tame. Qed.

Lemma tame_py_iter v : tame (py_iter v).
Proof. unfold py_iter. tame. Qed.

Lemma tame_environ_get k : tame (environ_get k).
Proof. tame. Qed.

Lemma tame_read_text p : tame (os.read_text p).
Proof. unfold os.read_text. tame. Qed.

Lemma tame_write_text p s : tame (os.write_text p s).
Proof. unfold os.write_text. tame. Qed.

Lemma tame_mkdir p : tame (os.mkdir_exist_ok p).
Proof. unfold os.mkdir_exist_ok. tame. Qed.

#[export] Hint Resolve tame_subscript tame_dict_dot_get tame_dot_startswith
  tame_py_iter tame_environ_get tame_read_text tame_write_text tame_mkdir : tame.

Section Tame.
Context `{Externals}.

Lemma tame_git_clone url name : tame (subprocess.git_clone url name).
Proof.
  intros w r w' E. unfold subprocess.git_clone in E.
  destruct (remote url); [destruct (subprocess.clonable _ _)|];
    inversion E; auto using later_refl, later_set_fs.
Qed.

Lemma tame_wget url dest : tame (subprocess.wget url dest).
Proof.
  intros w r w' E. unfold subprocess.wget in E.
  repeat case_match; inversion E; auto using later_refl, later_set_fs.
Qed.

Lemma tame_program argv : tame (subprocess.program argv).
Proof.
  unfold subprocess.program.
  repeat case_match; auto using tame_git_clone, tame_wget, tame_raise.
Qed.

Lemma tame_run argv : tame (subprocess.run argv).
Proof.
  unfold subprocess.run. apply tame_bind.
  - intros w r w' E. inversion E. by apply later_emit.
  - intros _. apply tame_program.
Qed.

Lemma tame_json_loads s : tame (json_loads s).
Proof. unfold json_loads. tame. Qed.

Lemma tame_str_list l : tame (str_list l).
Proof. induction l as [|[] l IH]; simpl; tame. Qed.

Lemma tame_subprocess_run l : tame (subprocess_run l).
Proof. unfold subprocess_run. auto using tame_str_list, tame_run with tame. Qed.

Lemma tame_download_file url dest : tame (download_file url dest).
Proof. unfold download_file. auto using tame_subprocess_run with tame. Qed.

Lemma tame_path_div p v : tame (path_div p v).
Proof. unfold path_div. tame. Qed.

Hint Resolve tame_json_loads tame_subprocess_run tame_download_file
  tame_path_div : tame.

Lemma tame_external_file repo_root e : tame (external_file repo_root e).
Proof. unfold external_file. tame. Qed.

Lemma tame_external_contrib_files data repo_root :
  tame (external_contrib_files data repo_root).
Proof.
  unfold external_contrib_files.
  auto 20 using tame_external_file with tame.
Qed.

Lemma tame_write_metadata github_repo name :
  tame (write_metadata github_repo name).
Proof. unfold write_metadata. tame. Qed.

Lemma tame_clone_repo_body model_meta : tame (clone_repo_body model_meta).
Proof.
  unfold clone_repo_body.
  auto 30 using tame_external_contrib_files, tame_write_metadata with tame.
Qed.

End Tame.

(** ** Strings and paths *)

Lemma eqb_refl_s (s : string) : String.eqb s s = true.
Proof. apply String.eqb_refl. Qed.

Lemma leading_seps_relative d :
  startswith d "/" = false -> pathlib.leading_seps d = 0.
Proof.
  destruct d as [|c d]; [done|].
  unfold startswith. simpl.
  destruct (ascii_dec "/" c) as [<-|Hc]; [by destruct d|].
  intros _.
  destruct c as [[] [] [] [] [] [] [] []]; try reflexivity.
  by destruct Hc.
Qed.

Lemma div_relative_names p d :
  startswith d "/" = false ->
  p </> d = mkPath (root p) (names p ++ pathlib.components d).
Proof.
  intros Hd. unfold pathlib.div, pathlib.parse, pathlib.splitroot.
  by rewrite (leading_seps_relative _ Hd).
Qed.

Lemma strip_prefix_app pre l : pathlib.strip_prefix pre (pre ++ l) = Some l.
Proof.
  induction pre as [|a pre IH]; simpl; [done|].
  by rewrite eqb_refl_s.
Qed.

(** The path handed to [Model] is the file name alone. *)
Lemma relative_to_child d :
  pathlib.relative_to (d </> "modelhub.json") d
  = Ok (mkPath "" ["modelhub.json"]).
Proof.
  unfold pathlib.relative_to. simpl.
  by rewrite eqb_refl_s, strip_prefix_app.
Qed.

(** ** The boundary of [handle_errors] *)

Section Boundary.
Context `{Externals}.

Lemma handle_errors_ok f arg w w' :
  f arg w = (Ok tt, w') -> handle_errors f arg w = (Ok true, w').
Proof. intros E. unfold handle_errors. by rewrite E. Qed.

Lemma handle_errors_raise f arg w e w' :
  f arg w = (Raise e, w') ->
  handle_errors f arg w = (Ok false, emit (Failed arg e) w').
Proof. intros E. unfold handle_errors. by rewrite E. Qed.

(** A call of the decorated function returns, whatever its body does,
    and records one failure exactly when the body raised. *)
Lemma clone_repo_returns model_meta w :
  exists ok w' t,
    clone_repo model_meta w = (Ok ok, w')
    /\ environ w' = environ w /\ cwd w' = cwd w /\ pool w' = pool w
    /\ trace w' = trace w ++ t
    /\ failures t = (if ok then 0 else 1)
    /\ (ok = true <-> exists w1, clone_repo_body model_meta w = (Ok tt, w1)).
Proof.
  unfold clone_repo, handle_errors.
  destruct (clone_repo_body model_meta w) as [[[]|e] w1] eqn:E;
    destruct (tame_clone_repo_body _ _ _ _ E) as [He Hc Hp (t & Ht & Hf)].
  - exists true, w1, t. repeat split; eauto.
  - exists false, (emit (Failed model_meta e) w1), (t ++ [Failed model_meta e]).
    repeat split; simpl; try done.
    + by rewrite Ht, app_assoc.
    + rewrite failures_app, Hf. reflexivity.
    + intros (w2 & E2). discriminate.
Qed.

Lemma count_false_cons (b : bool) l :
  length (List.filter negb (b :: l))
  = (if b then 0 else 1) + length (List.filter negb l).
Proof. by destruct b. Qed.

(** The queued calls all run, and each failure is recorded once. *)
Lemma run_calls_returns l w :
  exists oks w' t,
    run_calls l w = (Ok oks, w')
    /\ length oks = length l
    /\ environ w' = environ w /\ cwd w' = cwd w /\ pool w' = pool w
    /\ trace w' = trace w ++ t
    /\ failures t = length (List.filter negb oks).
Proof.
  revert w. induction l as [|m l IH]; intros w.
  - exists [], w, []. simpl. rewrite app_nil_r. by repeat split.
  - destruct (clone_repo_returns m w) as (ok & w1 & t1 & E1 & He1 & Hc1 & Hp1 & Ht1 & Hf1 & _).
    destruct (IH w1) as (oks & w2 & t2 & E2 & Hl & He2 & Hc2 & Hp2 & Ht2 & Hf2).
    exists (ok :: oks), w2, (t1 ++ t2).
    repeat split; try congruence.
    + simpl. rewrite (bind_ok _ _ _ _ _ E1), (bind_ok _ _ _ _ _ E2). done.
    + simpl. by rewrite Hl.
    + by rewrite Ht2, Ht1, app_assoc.
    + rewrite failures_app, count_false_cons. lia.
Qed.

End Boundary.

(** ** The external files of a package *)

Section Assets.
Context `{Externals}.

Lemma external_file_url repo_root kvs src dest w :
  dict_get kvs "src_url" = Some (JStr src) ->
  startswith src "http" = true ->
  dict_get kvs "dest_file_path" = Some (JStr dest) ->
  external_file repo_root (JObj kvs) w
  = fetch src (destination repo_root dest) w.
Proof.
  intros Hs Hp Hd.
  unfold external_file, fetch, destination, bind, subscript, dot_startswith, ret.
  rewrite Hs, Hp, Hd. simpl.
  by destruct (startswith dest "/").
Qed.

Lemma external_file_note repo_root kvs src w :
  dict_get kvs "src_url" = Some (JStr src) ->
  startswith src "http" = false ->
  external_file repo_root (JObj kvs) w = (Ok tt, w).
Proof.
  intros Hs Hp. unfold external_file, bind, subscript, dot_startswith, ret.
  by rewrite Hs, Hp.
Qed.

(** C2, as the code has it: an entry whose [src_url] does not start with
    [http] is passed over. The loop body returns at once, the world is
    as it was (no child process, no output), and the loop goes on with
    the entries that follow. *)
Theorem non_http_entry_skipped repo_root kvs src rest w :
  dict_get kvs "src_url" = Some (JStr src) ->
  startswith src "http" = false ->
  external_file repo_root (JObj kvs) w = (Ok tt, w)
  /\ for_each (JObj kvs :: rest) (external_file repo_root) w
     = for_each rest (external_file repo_root) w.
Proof.
  intros Hs Hp.
  pose proof (external_file_note repo_root kvs src w Hs Hp) as E.
  split; [done|]. simpl. by rewrite (bind_ok _ _ _ _ _ E).
Qed.


(** C10: a falsy value under [external_contrib_files] is the same as no
    key: nothing is run, nothing is raised, and the rest of the call
    goes on from the same state. *)
Theorem falsy_external_contrib_files kvs listed repo_root {A} (k : M A) w :
  dict_get kvs "external_contrib_files" = Some listed ->
  truthy listed = false ->
  external_contrib_files (JObj kvs) repo_root w = (Ok tt, w)
  /\ (external_contrib_files (JObj kvs) repo_root >> k) w = k w
  /\ forall kvs',
       dict_get kvs' "external_contrib_files" = None ->
       external_contrib_files (JObj kvs') repo_root w = (Ok tt, w)
       /\ (external_contrib_files (JObj kvs') repo_root >> k) w = k w.
Proof.
  intros Hl Hf.
  assert (E : external_contrib_files (JObj kvs) repo_root w = (Ok tt, w)).
  { unfold external_contrib_files, bind, dict_dot_get, ret.
    rewrite Hl. simpl. by rewrite Hf. }
  split; [done|]. split; [by rewrite (bind_ok _ _ _ _ _ E)|].
  intros kvs' Hn.
  assert (E' : external_contrib_files (JObj kvs') repo_root w = (Ok tt, w)).
  { unfold external_contrib_files, bind, dict_dot_get, ret. by rewrite Hn. }
  split; [done|]. by rewrite (bind_ok _ _ _ _ _ E').
Qed.

End Assets.

(** ** The three switches *)

Lemma tame_extends {A} (m : M A) w r w' :
  tame m -> m w = (r, w') -> exists t, trace w' = trace w ++ t.
Proof. intros Hm E. destruct (Hm _ _ _ E) as [_ _ _ (t & Ht & _)]. eauto. Qed.

Lemma toggle_unset env k : env !! k = None -> toggle env k = false.
Proof. intros E. unfold toggle. by rewrite E. Qed.

Section Switches.
Context `{Externals}.

Lemma valid_entry_fetch repo_root e src dest w :
  valid_entry e = Some (src, dest) ->
  external_file repo_root e w = fetch src (destination repo_root dest) w.
Proof.
  unfold valid_entry. intros Hv. repeat case_match; try discriminate.
  inversion Hv; subst. by apply external_file_url.
Qed.

Lemma skipped_entries repo_root l w :
  toggle (environ w) "MHTORRENT_SKIP_DOWNLOAD" = true ->
  Forall (fun e => is_Some (valid_entry e)) l ->
  for_each l (external_file repo_root) w
  = (Ok tt, mkWorld (environ w) (cwd w) (fs w)
              (trace w ++ replicate (length l) (Print "skipping download"))
              (pool w)).
Proof.
  intros Ht Hl. revert w Ht.
  induction Hl as [|e l [[src dest] He] _ IH]; intros w Ht.
  - simpl. unfold ret. rewrite app_nil_r. by destruct w.
  - simpl. unfold bind at 1.
    rewrite (valid_entry_fetch _ _ _ _ _ He).
    unfold fetch, bind, environ_get, gets. rewrite Ht. simpl.
    rewrite IH by done. simpl.
    by rewrite <- app_assoc.
Qed.

Lemma fetch_unset src realpath w :
  toggle (environ w) "MHTORRENT_SKIP_DOWNLOAD" = false ->
  fetch src realpath w
  = (print ("downloading " +:+ src +:+ " to " +:+ pathlib.str realpath) >>
     download_file (JStr src) realpath) w.
Proof. intros Ht. unfold fetch, bind at 1, environ_get, gets. by rewrite Ht. Qed.

Lemma fetched_entries repo_root l w :
  toggle (environ w) "MHTORRENT_SKIP_DOWNLOAD" = false ->
  Forall (fun e => is_Some (valid_entry e)) l ->
  for_each l (external_file repo_root) w
  = for_each (omap valid_entry l)
      (fun a => print ("downloading " +:+ a.1 +:+ " to "
                       +:+ pathlib.str (destination repo_root a.2)) >>
                download_file (JStr a.1) (destination repo_root a.2)) w.
Proof.
  intros Ht Hl. revert w Ht.
  induction Hl as [|e l [[src dest] He] _ IH]; intros w Ht; [done|].
  simpl. rewrite He. simpl.
  apply bind_ext_at.
  - rewrite (valid_entry_fetch _ _ _ _ _ He). by apply fetch_unset.
  - intros [] w1 E. apply IH.
    assert (L : later w w1).
    { eapply (tame_bind _ _ (tame_print _) (fun _ => tame_download_file _ _)), E. }
    by rewrite (later_environ _ _ L).
Qed.

End Switches.

(** ** First events of a run *)

Lemma subscript_some kvs k v w :
  dict_get kvs k = Some v -> subscript (JObj kvs) k w = (Ok v, w).
Proof. intros E. unfold subscript. by rewrite E. Qed.

Lemma subscript_none kvs k w :
  dict_get kvs k = None -> subscript (JObj kvs) k w = (Raise (KeyError k), w).
Proof. intros E. unfold subscript. by rewrite E. Qed.

Section FirstEvents.
Context `{Externals}.

Lemma str_list_strings argv w :
  str_list (JStr <$> argv) w = (Ok argv, w).
Proof.
  revert w. induction argv as [|a argv IH]; intros w; [done|].
  simpl. by rewrite (bind_ok _ _ _ _ _ (IH w)).
Qed.

(** A child process is announced and started before anything else. *)
Lemma subprocess_run_events argv w r w' :
  subprocess_run (JStr <$> argv) w = (r, w') ->
  exists t,
    trace w' = trace w ++ Print ("$ " +:+ join " " argv) :: Exec argv :: t.
Proof.
  unfold subprocess_run. rewrite (bind_ok _ _ _ _ _ (str_list_strings argv w)).
  unfold subprocess.run, bind at 1 2, print, modify. intros E.
  destruct (tame_extends _ _ _ _ (tame_program argv) E) as (t & Ht).
  exists t. rewrite Ht. simpl. by rewrite <- !app_assoc.
Qed.

Lemma subprocess_run_first {A} argv (k : unit -> M A) w r w' :
  (forall a, tame (k a)) ->
  bind (subprocess_run (JStr <$> argv)) k w = (r, w') ->
  exists t,
    trace w' = trace w ++ Print ("$ " +:+ join " " argv) :: Exec argv :: t.
Proof.
  intros Hk E.
  destruct (bind_inv _ _ _ _ _ E) as [(a & w1 & E1 & E2) | (e & E1 & _)].
  - destruct (subprocess_run_events _ _ _ _ E1) as (t1 & Ht1).
    destruct (tame_extends _ _ _ _ (Hk a) E2) as (t2 & Ht2).
    exists (t1 ++ t2). rewrite Ht2, Ht1. by rewrite <- !app_assoc.
  - by eapply subprocess_run_events.
Qed.

Lemma tame_grows {A} (m : M A) : tame m -> grows m.
Proof. intros Hm w r w' E. by eapply tame_extends. Qed.

Lemma grows_bind {A B} (m : M A) (k : A -> M B) :
  grows m -> (forall a, grows (k a)) -> grows (bind m k).
Proof.
  intros Hm Hk w r w' E.
  destruct (bind_inv _ _ _ _ _ E) as [(a & w1 & E1 & E2) | (e & E1 & _)].
  - destruct (Hm _ _ _ E1) as (t1 & Ht1). destruct (Hk _ _ _ _ E2) as (t2 & Ht2).
    exists (t1 ++ t2). by rewrite Ht2, Ht1, app_assoc.
  - by eapply Hm.
Qed.

Lemma grows_for_each {A} (l : list A) (body : A -> M unit) :
  (forall a, grows (body a)) -> grows (for_each l body).
Proof.
  intros Hb. induction l as [|x l IH]; simpl.
  - apply tame_grows, tame_ret.
  - apply grows_bind; [apply Hb | intros _; apply IH].
Qed.

Lemma grows_chdir p : grows (os.chdir p).
Proof.
  intros w r w' E. exists []. rewrite app_nil_r.
  unfold os.chdir, os.locate, bind, gets, modify, raise in E.
  repeat case_match; by inversion E.
Qed.

Lemma grows_submit m : grows (submit m).
Proof. intros w r w' E. inversion E. exists []. by rewrite app_nil_r. Qed.

(** What [create_model_repos] does once it has the index. *)
Lemma grows_dispatch models :
  grows (os.chdir repos_dir >>
         let* l := py_iter models in
         for_each l submit >>
         os.chdir curr).
Proof.
  apply grows_bind; [apply grows_chdir | intros _].
  apply grows_bind; [apply tame_grows, tame_py_iter | intros l].
  apply grows_bind; [|intros _; apply grows_chdir].
  apply grows_for_each. intros m. apply grows_submit.
Qed.

Lemma get_model_index_first w r w' :
  get_model_index w = (r, w') ->
  exists t, trace w' = trace w ++ HttpGet MODEL_JSON_URL :: t.
Proof.
  unfold get_model_index, requests_get, bind at 1 2, modify.
  destruct (http MODEL_JSON_URL) as [body|]; unfold ret, raise.
  - intros E.
    assert (T : tame (os.write_text (json_dir </> "models.json") body >>
                      json_loads body)).
    { apply tame_bind; [apply tame_write_text | intros _; apply tame_json_loads]. }
    destruct (tame_extends _ _ _ _ T E) as (t & Ht).
    exists t. rewrite Ht. simpl. by rewrite <- app_assoc.
  - intros E. inversion E. by exists [].
Qed.

End FirstEvents.

Section SwitchesDefault.
Context `{Externals}.

Lemma live_index_first w r w' :
  toggle (environ w) "MHTORRENT_USE_LOCAL_MODEL_INDEX" = false ->
  create_model_repos w = (r, w') ->
  exists t, trace w' = trace w ++ HttpGet MODEL_JSON_URL :: t.
Proof.
  intros Ht. unfold create_model_repos, bind at 1, environ_get, gets.
  rewrite Ht. intros E.
  destruct (bind_inv _ _ _ _ _ E) as [(a & w1 & E1 & E2) | (e & E1 & _)].
  - destruct (get_model_index_first _ _ _ E1) as (t1 & Ht1).
    destruct (grows_dispatch _ _ _ _ E2) as (t2 & Ht2).
    exists (t1 ++ t2). rewrite Ht2, Ht1. by rewrite <- !app_assoc.
  - by eapply get_model_index_first.
Qed.

Lemma clone_first kvs u n w r w' :
  dict_get kvs "github" = Some (JStr u) ->
  dict_get kvs "name" = Some (JStr n) ->
  toggle (environ w) "MHTORRENT_SKIP_CLONE" = false ->
  clone_repo_body (JObj kvs) w = (r, w') ->
  exists t,
    trace w' = trace w ++ Print ("$ git clone --depth=1 " +:+ u +:+ " " +:+ n)
               :: Exec ["git"; "clone"; "--depth=1"; u; n] :: t.
Proof.
  intros Hg Hn Ht. unfold clone_repo_body.
  rewrite (bind_ok _ _ _ _ _ (subscript_some _ _ _ _ Hg)).
  rewrite (bind_ok _ _ _ _ _ (subscript_some _ _ _ _ Hn)).
  unfold bind at 1, environ_get, gets. rewrite Ht. simpl negb. cbv iota.
  intros E.
  apply (subprocess_run_first ["git"; "clone"; "--depth=1"; u; n]) in E; [done|].
  intros _. auto 30 using tame_external_contrib_files, tame_write_metadata,
    tame_path_div, tame_json_loads with tame.
Qed.


End SwitchesDefault.

(** ** The index *)

Lemma bind_assoc {A B C} (m : M A) (k : A -> M B) (k' : B -> M C) w :
  bind (bind m k) k' w = bind m (fun a => bind (k a) k') w.
Proof. unfold bind. by destruct (m w) as [[a|e] w1]. Qed.

Lemma stat_insert_eq (f : gmap (list string) node) k nd :
  k <> [] -> os.stat (<[k := nd]> f) k = Some nd.
Proof. intros Hk. destruct k; [done|]. simpl. apply lookup_insert_eq. Qed.

Section Index.
Context `{Externals}.

Lemma create_model_repos_saved w :
  toggle (environ w) "MHTORRENT_USE_LOCAL_MODEL_INDEX" = true ->
  create_model_repos w = bind saved_index dispatch w.
Proof.
  intros Ht. unfold create_model_repos, bind at 1, environ_get, gets.
  by rewrite Ht.
Qed.

Lemma create_model_repos_live w :
  toggle (environ w) "MHTORRENT_USE_LOCAL_MODEL_INDEX" = false ->
  create_model_repos w = bind get_model_index dispatch w.
Proof.
  intros Ht. unfold create_model_repos, bind at 1, environ_get, gets.
  by rewrite Ht.
Qed.

Lemma saved_index_missing w :
  os.stat (fs w) (os.resolve (cwd w) (json_dir </> "models.json")) = None ->
  saved_index w = (Raise FileNotFoundError, w).
Proof.
  intros Hs. unfold saved_index, os.read_text, os.locate, bind, gets.
  by rewrite Hs.
Qed.

(** C7: with the switch for the saved index on and no saved index at
    its place, [create_model_repos] raises, and leaves the state as it
    found it: nothing has joined the queue. Raised after the two
    directories are made, the exception ends the script before the pool
    runs anything. *)
Theorem missing_saved_index_aborts w :
  toggle (environ w) "MHTORRENT_USE_LOCAL_MODEL_INDEX" = true ->
  os.stat (fs w) (os.resolve (cwd w) (json_dir </> "models.json")) = None ->
  create_model_repos w = (Raise FileNotFoundError, w)
  /\ forall w0 p,
       (safe_dir "../repos" >> safe_dir "../json") w0 = (Ok p, w) ->
       script w0 = (Raise FileNotFoundError, w).
Proof.
  intros Ht Hs.
  assert (E : create_model_repos w = (Raise FileNotFoundError, w)).
  { rewrite (create_model_repos_saved _ Ht).
    by rewrite (bind_raise _ _ _ _ _ (saved_index_missing _ Hs)). }
  split; [done|]. intros w0 p E0.
  unfold script. apply bind_raise.
  unfold main. rewrite <- bind_assoc.
  by rewrite (bind_ok _ _ _ _ _ E0).
Qed.

Lemma write_text_ok p s w w' :
  os.write_text p s w = (Ok tt, w') ->
  os.resolve (cwd w) p <> []
  /\ w' = set_fs (<[os.resolve (cwd w) p := File s]> (fs w)) w.
Proof.
  unfold os.write_text, os.locate, bind, gets, modify, raise.
  destruct (os.resolve (cwd w) p) as [|c k] eqn:Hk; [discriminate|].
  intros E. split; [done|].
  repeat case_match; by inversion E.
Qed.


End Index.

(** ** A descriptor without a repository *)

Section Descriptor.
Context `{Externals}.

(** C6, as the code has it: a descriptor without a [github] key fails
    at the first line of [clone_repo], before any child process: the
    body raises [KeyError] from the state it was called in, and the
    decorated call returns as failed, the record of the failure being its
    one change to the state. *)
Theorem missing_github_fails_before_clone kvs w :
  dict_get kvs "github" = None ->
  clone_repo_body (JObj kvs) w = (Raise (KeyError "github"), w)
  /\ clone_repo (JObj kvs) w
     = (Ok false, emit (Failed (JObj kvs) (KeyError "github")) w).
Proof.
  intros Hg.
  assert (E : clone_repo_body (JObj kvs) w = (Raise (KeyError "github"), w)).
  { unfold clone_repo_body.
    by rewrite (bind_raise _ _ _ _ _ (subscript_none _ _ _ Hg)). }
  split; [done|]. by apply handle_errors_raise.
Qed.

End Descriptor.

(** ** Where paths lead *)

Lemma fold_step_plain xs b :
  Forall (fun x => x <> "..") xs -> fold_left os.step xs b = b ++ xs.
Proof.
  intros Hx. revert b. induction Hx as [|x xs Hne _ IH]; intros b; simpl.
  - by rewrite app_nil_r.
  - unfold os.step at 2. apply String.eqb_neq in Hne. rewrite Hne.
    by rewrite IH, <- app_assoc.
Qed.

Lemma resolve_app c r ns xs :
  Forall (fun x => x <> "..") xs ->
  os.resolve c (mkPath r (ns ++ xs)) = os.resolve c (mkPath r ns) ++ xs.
Proof.
  intros Hx. unfold os.resolve, pathlib.is_absolute. simpl.
  rewrite fold_left_app. by apply fold_step_plain.
Qed.

Lemma resolve_child c p (x : string) xs :
  names (p </> x) = names p ++ xs -> root (p </> x) = root p ->
  Forall (fun x => x <> "..") xs ->
  os.resolve c (p </> x) = os.resolve c p ++ xs.
Proof.
  intros Hn Hr Hx. destruct (p </> x) as [r ns]. simpl in *. subst.
  rewrite resolve_app by done. by destruct p.
Qed.

Lemma resolve_model_json c d :
  os.resolve c (d </> "model.json") = os.resolve c d ++ ["model.json"].
Proof. apply resolve_child; try done. by repeat constructor. Qed.

Lemma resolve_modelhub_json c d :
  os.resolve c (d </> "modelhub.json") = os.resolve c d ++ ["modelhub.json"].
Proof. apply resolve_child; try done. by repeat constructor. Qed.

Lemma resolve_config_json c d :
  os.resolve c (d </> "contrib_src/model/config.json")
  = os.resolve c d ++ ["contrib_src"; "model"; "config.json"].
Proof. apply resolve_child; try done. by repeat constructor. Qed.

Lemma resolve_init_json c d :
  os.resolve c (d </> "init/init.json") = os.resolve c d ++ ["init"; "init.json"].
Proof. apply resolve_child; try done. by repeat constructor. Qed.

Lemma stat_lookup (f : gmap (list string) node) k x xs :
  os.stat f (k ++ x :: xs) = f !! (k ++ x :: xs).
Proof. by destruct k. Qed.

Lemma snoc_ne {A} (k k' : list A) x y : x <> y -> k ++ [x] <> k' ++ [y].
Proof. intros Hxy E. by apply app_inj_tail in E as [_ ?]. Qed.

(** ** The metadata of a package *)

Section Metadata.
Context `{Externals}.

Lemma read_text_ok p w s w' :
  os.read_text p w = (Ok s, w') ->
  w' = w /\ os.stat (fs w) (os.resolve (cwd w) p) = Some (File s).
Proof.
  unfold os.read_text, os.locate, bind, gets, ret, raise. intros E.
  repeat case_match; by inversion E.
Qed.

Lemma json_loads_ok s w v w' :
  json_loads s w = (Ok v, w') -> w' = w /\ loads s = Some v.
Proof.
  unfold json_loads, ret, raise. intros E. repeat case_match; by inversion E.
Qed.

Lemma path_div_ok p v w q w' :
  path_div p v w = (Ok q, w') -> exists s, v = JStr s /\ q = p </> s /\ w' = w.
Proof.
  unfold path_div, ret, raise. intros E.
  destruct v; inversion E. eauto.
Qed.

Lemma mkdir_ok p w w' :
  os.mkdir_exist_ok p w = (Ok tt, w') ->
  cwd w' = cwd w
  /\ (fs w' = fs w
      \/ (os.stat (fs w) (os.resolve (cwd w) p) = None
          /\ fs w' = <[os.resolve (cwd w) p := Dir]> (fs w))).
Proof.
  unfold os.mkdir_exist_ok, os.locate, bind, gets, modify, ret, raise.
  intros E. repeat case_match; inversion E; auto.
Qed.

(** What a successful run of lines 106 to 114 has read and written. *)
Lemma write_metadata_ok github_repo name w w' :
  write_metadata github_repo name w = (Ok tt, w') ->
  exists n text config record f,
    name = JStr n
    /\ fs w !! (os.resolve (cwd w) (repos_dir </> n)
                ++ ["contrib_src"; "model"; "config.json"]) = Some (File text)
    /\ loads text = Some config
    /\ Model config (mkPath "" ["modelhub.json"]) github_repo = Ok record
    /\ cwd w' = cwd w
    /\ (f = fs w
        \/ (os.stat (fs w) (os.resolve (cwd w) (json_dir </> n)) = None
            /\ f = <[os.resolve (cwd w) (json_dir </> n) := Dir]> (fs w)))
    /\ fs w' = <[os.resolve (cwd w) (json_dir </> n) ++ ["modelhub.json"]
                 := File (dumps config)]>
               (<[os.resolve (cwd w) (json_dir </> n) ++ ["model.json"]
                  := File (dumps record)]> f).
Proof.
  unfold write_metadata. intros E.
  apply bind_inv_ok in E as (repo_root & w1 & E1 & E).
  apply path_div_ok in E1 as (n & -> & -> & ->).
  apply bind_inv_ok in E as (text & w1 & E1 & E).
  apply read_text_ok in E1 as [-> Htext].
  apply bind_inv_ok in E as (config & w1 & E1 & E).
  apply json_loads_ok in E1 as [-> Hconfig].
  apply bind_inv_ok in E as (dir & w1 & E1 & E).
  apply path_div_ok in E1 as (n' & [= <-] & -> & ->).
  apply bind_inv_ok in E as ([] & w1 & E1 & E).
  apply mkdir_ok in E1 as [Hc1 Hf1].
  rewrite relative_to_child in E.
  apply bind_inv_ok in E as (rel & w2 & E2 & E).
  inversion E2; subst rel w2; clear E2.
  apply bind_inv_ok in E as (record & w2 & E2 & E).
  unfold lift in E2.
  destruct (Model config _ github_repo) as [rec|] eqn:HM; inversion E2; subst rec w2; clear E2.
  apply bind_inv_ok in E as ([] & w2 & E2 & E).
  apply write_text_ok in E2 as [_ ->].
  apply write_text_ok in E as [_ ->].
  simpl. rewrite !Hc1, resolve_model_json, resolve_modelhub_json.
  rewrite resolve_config_json, stat_lookup in Htext.
  exists n, text, config, record, (fs w1).
  repeat split; try done.
Qed.

End Metadata.

Section Synchronized.
Context `{Externals}.

Lemma subscript_ok v k w x w' :
  subscript v k w = (Ok x, w') ->
  exists kvs, v = JObj kvs /\ dict_get kvs k = Some x /\ w' = w.
Proof.
  unfold subscript, ret, raise. intros E.
  destruct v; try discriminate.
  destruct (dict_get kvs k) eqn:Hk; inversion E; subst. by exists kvs.
Qed.

(** C5, as the code has it: after a call whose body returned, [modelhub.json]
    holds [dumps] of the parsed [config.json] (the document written
    again by the [json] library, not its bytes), and [model.json] holds
    [dumps] of the record that [Model] built from the parsed document,
    the relative path [modelhub.json] and the [github] value. *)
Theorem metadata_of_synchronized_package model_meta w w' :
  clone_repo_body model_meta w = (Ok tt, w') ->
  exists kvs github_repo name text config record,
    model_meta = JObj kvs
    /\ dict_get kvs "github" = Some github_repo
    /\ dict_get kvs "name" = Some (JStr name)
    /\ fs w' !! (os.resolve (cwd w) (repos_dir </> name)
                 ++ ["contrib_src"; "model"; "config.json"]) = Some (File text)
    /\ loads text = Some config
    /\ fs w' !! (os.resolve (cwd w) (json_dir </> name) ++ ["modelhub.json"])
       = Some (File (dumps config))
    /\ Model config (mkPath "" ["modelhub.json"]) github_repo = Ok record
    /\ pathlib.is_absolute (mkPath "" ["modelhub.json"]) = false
    /\ fs w' !! (os.resolve (cwd w) (json_dir </> name) ++ ["model.json"])
       = Some (File (dumps record)).
Proof.
  intros E. unfold clone_repo_body in E.
  apply bind_inv_ok in E as (g & w1 & E1 & E).
  apply subscript_ok in E1 as (kvs & -> & Hg & ->).
  apply bind_inv_ok in E as (nm & w1 & E1 & E).
  apply subscript_ok in E1 as (kvs' & [= <-] & Hn & ->).
  apply bind_inv_ok in E as (skip & w1 & E1 & E).
  inversion E1; subst skip w1; clear E1.
  apply bind_inv_ok in E as ([] & w1 & E1 & E).
  assert (L1 : later w w1).
  { revert E1. apply tame_if; [apply tame_subprocess_run | apply tame_ret]. }
  apply bind_inv_ok in E as (repo_root & w2 & E2 & E).
  apply path_div_ok in E2 as (n & -> & -> & ->).
  apply bind_inv_ok in E as (text0 & w2 & E2 & E).
  apply read_text_ok in E2 as [-> _].
  apply bind_inv_ok in E as (data & w2 & E2 & E).
  apply json_loads_ok in E2 as [-> _].
  apply bind_inv_ok in E as ([] & w2 & E2 & E).
  apply tame_external_contrib_files in E2 as L2.
  apply write_metadata_ok in E
    as (n' & text & config & record & f & [= <-] & Ht & Hc & HM & _ & Hf & Hfs).
  assert (Hcwd : cwd w2 = cwd w).
  { by rewrite (later_cwd _ _ L2), (later_cwd _ _ L1). }
  rewrite Hcwd in *.
  exists kvs, g, n, text, config, record.
  repeat split; try done.
  - rewrite Hfs, !lookup_insert_ne.
    + destruct Hf as [-> | [Hno ->]]; [done|].
      rewrite lookup_insert_ne; [done|].
      intros Heq. rewrite Heq, stat_lookup in Hno. congruence.
    + rewrite (app_assoc _ ["contrib_src"; "model"] ["config.json"]).
      by apply snoc_ne.
    + rewrite (app_assoc _ ["contrib_src"; "model"] ["config.json"]).
      by apply snoc_ne.
  - rewrite Hfs. apply lookup_insert_eq.
  - rewrite Hfs, lookup_insert_ne by (by apply snoc_ne).
    apply lookup_insert_eq.
Qed.

End Synchronized.

(** ** The executor *)

Section Executor.
Context `{Externals}.

Lemma tame_get_model_index : tame get_model_index.
Proof.
  unfold get_model_index. apply tame_bind.
  - unfold requests_get. apply tame_bind.
    + intros w r w' E. inversion E. by apply later_emit.
    + intros _. destruct (http MODEL_JSON_URL); [apply tame_ret | apply tame_raise].
  - intros resp. apply tame_bind; [apply tame_write_text|].
    intros _. apply tame_json_loads.
Qed.

Lemma for_each_submit l w :
  for_each l submit w = (Ok tt, set_pool (pool w ++ l) w).
Proof.
  revert w. induction l as [|m l IH]; intros w; simpl.
  - unfold ret, set_pool. rewrite app_nil_r. by destruct w.
  - unfold bind, submit, modify. rewrite IH. unfold set_pool. simpl.
    by rewrite <- app_assoc.
Qed.

Lemma chdir_ok p w w' :
  os.chdir p w = (Ok tt, w') -> exists k, w' = set_cwd k w.
Proof.
  unfold os.chdir, os.locate, bind, gets, modify, raise. intros E.
  repeat case_match; inversion E; eauto.
Qed.

Lemma py_iter_ok v w l w' : py_iter v w = (Ok l, w') -> w' = w.
Proof. unfold py_iter, ret, raise. intros E. destruct v; by inversion E. Qed.

Lemma dispatch_ok models w w' :
  dispatch models w = (Ok tt, w') ->
  exists calls,
    py_iter models w = (Ok calls, w)
    /\ pool w' = pool w ++ calls
    /\ trace w' = trace w /\ fs w' = fs w /\ environ w' = environ w.
Proof.
  unfold dispatch. intros E.
  apply bind_inv_ok in E as ([] & w1 & E1 & E).
  apply chdir_ok in E1 as (k1 & ->).
  apply bind_inv_ok in E as (l & w2 & E2 & E).
  pose proof (py_iter_ok _ _ _ _ E2) as ->.
  apply bind_inv_ok in E as ([] & w3 & E3 & E).
  rewrite for_each_submit in E3. inversion E3; subst w3; clear E3.
  apply chdir_ok in E as (k2 & ->).
  exists l. repeat split; try done.
  unfold py_iter, ret, raise in *. destruct models; by inversion E2.
Qed.


End Executor.

(** ** Clones *)

Lemma elem_of_prefixes k t :
  k ∈ subprocess.prefixes t <-> k <> [] /\ k `prefix_of` t.
Proof.
  revert k. induction t as [|x t IH]; intros k; simpl.
  - split; [by intros ?%elem_of_nil|].
    intros [Hk Hp]. apply prefix_nil_inv in Hp. done.
  - rewrite elem_of_cons, list_elem_of_fmap. split.
    + intros [-> | (k' & -> & Hk')].
      * split; [done|]. by apply prefix_cons, prefix_nil.
      * apply IH in Hk' as [_ Hp]. split; [done|]. by apply prefix_cons.
    + intros [Hk Hp]. destruct k as [|y k]; [done|].
      apply prefix_cons_inv_1 in Hp as Hy. subst y.
      apply prefix_cons_inv_2 in Hp.
      destruct k as [|z k]; [by left|].
      right. exists (z :: k). split; [done|]. by apply IH.
Qed.

Lemma mkdirs_lookup t f k :
  subprocess.mkdirs t f !! k
  = if decide (k ∈ subprocess.prefixes t) then Some Dir else f !! k.
Proof.
  unfold subprocess.mkdirs.
  induction (subprocess.prefixes t) as [|d ds IH]; cbn [foldr].
  - destruct (decide (k ∈ [])) as [Hin|_]; [by apply elem_of_nil in Hin | done].
  - destruct (decide (d = k)) as [->|Hne].
    + rewrite lookup_insert_eq.
      destruct (decide (k ∈ k :: ds)) as [_|Hnin]; [done|].
      destruct Hnin. apply elem_of_cons. by left.
    + rewrite lookup_insert_ne by done. rewrite IH.
      destruct (decide (k ∈ ds)) as [Hin|Hnin];
        destruct (decide (k ∈ d :: ds)) as [Hin'|Hnin']; try done.
      * destruct Hnin'. apply elem_of_cons. by right.
      * apply elem_of_cons in Hin' as [?|?]; congruence.
Qed.

Lemma install_lookup_inside t tree f rel :
  subprocess.install t tree f !! (t ++ rel)
  = match tree_get tree rel with
    | Some nd => Some nd
    | None => subprocess.mkdirs t f !! (t ++ rel)
    end.
Proof.
  unfold subprocess.install. induction tree as [|e tree IH]; simpl; [done|].
  destruct (decide (e.1 = rel)) as [<-|Hne].
  - by rewrite lookup_insert_eq.
  - rewrite lookup_insert_ne; [done|]. by intros ?%app_inv_head.
Qed.

Lemma install_lookup_outside t tree f k :
  ~ t `prefix_of` k ->
  subprocess.install t tree f !! k = subprocess.mkdirs t f !! k.
Proof.
  intros Hk. unfold subprocess.install.
  induction tree as [|e tree IH]; simpl; [done|].
  rewrite lookup_insert_ne; [done|].
  intros <-. apply Hk. by apply prefix_app_r.
Qed.

(** ** Calls that do not meet *)

Lemma prefix_snoc_cases {A} (k l : list A) x :
  k `prefix_of` l ++ [x] -> k = l ++ [x] \/ k `prefix_of` l.
Proof.
  intros [s Hs]. destruct s as [|y s _] using rev_ind.
  - left. by rewrite app_nil_r in Hs.
  - right. rewrite app_assoc in Hs. apply app_inj_tail in Hs as [-> _].
    by exists s.
Qed.

Lemma clonable_fresh (f : gmap (list string) node) t n :
  Forall (fun d => f !! d = Some Dir) (subprocess.prefixes t) ->
  f !! (t ++ [n]) = None ->
  subprocess.clonable f (t ++ [n]) = true.
Proof.
  intros Hd Hn. unfold subprocess.clonable. rewrite Hn, andb_true_r.
  apply forallb_forall. intros d Hin%list_elem_of_In.
  apply elem_of_prefixes in Hin as [Hne Hp].
  unfold subprocess.not_file.
  destruct (prefix_snoc_cases _ _ _ Hp) as [-> | Hp'].
  - by rewrite Hn.
  - rewrite Forall_forall in Hd. rewrite (Hd d); [done|].
    by apply elem_of_prefixes.
Qed.

Lemma sibling_not_prefix {A} (b : list A) x y l1 l2 :
  x <> y -> ~ (b ++ x :: l1) `prefix_of` (b ++ y :: l2).
Proof. intros Hxy Hp%prefix_app_inv. by apply prefix_cons_inv_1 in Hp. Qed.

Lemma longer_not_prefix {A} (k l : list A) :
  length k < length l -> ~ l `prefix_of` k.
Proof. intros Hlen Hp%prefix_length. lia. Qed.

Section Isolation.
Context `{Externals}.
Variable B : list string.

Local Abbreviation Repos := (repos B).
Local Abbreviation Jsons := (jsons B).

Lemma removelast_snoc {A} (l : list A) x : removelast (l ++ [x]) = l.
Proof. apply removelast_last. Qed.

Lemma resolve_repos_dir n :
  plain n -> os.resolve Repos (repos_dir </> n) = Repos ++ [n].
Proof.
  intros [Hp Hn]. unfold pathlib.div. rewrite Hp. simpl.
  unfold os.resolve. simpl. unfold os.step at 2 3. simpl.
  unfold repos at 1. rewrite removelast_snoc.
  unfold os.step. apply String.eqb_neq in Hn. by rewrite Hn.
Qed.

Lemma resolve_json_dir n :
  plain n -> os.resolve Repos (json_dir </> n) = Jsons ++ [n].
Proof.
  intros [Hp Hn]. unfold pathlib.div. rewrite Hp. simpl.
  unfold os.resolve. simpl. unfold os.step at 2 3. simpl.
  unfold repos at 1. rewrite removelast_snoc.
  unfold os.step. apply String.eqb_neq in Hn. by rewrite Hn.
Qed.

Lemma resolve_name n : plain n -> os.resolve Repos (pathlib.parse n) = Repos ++ [n].
Proof.
  intros [Hp Hn]. rewrite Hp. unfold os.resolve. simpl.
  unfold os.step. apply String.eqb_neq in Hn. by rewrite Hn.
Qed.

Lemma read_text_file p w s :
  os.stat (fs w) (os.resolve (cwd w) p) = Some (File s) ->
  os.read_text p w = (Ok s, w).
Proof.
  intros Hs. unfold os.read_text, os.locate, bind, gets. by rewrite Hs.
Qed.

Lemma write_text_run p s w :
  os.stat (fs w) (os.resolve (cwd w) p) <> Some Dir ->
  os.stat (fs w) (removelast (os.resolve (cwd w) p)) = Some Dir ->
  os.write_text p s w
  = (Ok tt, set_fs (<[os.resolve (cwd w) p := File s]> (fs w)) w).
Proof.
  intros Hk Hp. unfold os.write_text, os.locate, bind, gets, modify.
  rewrite Hp. by destruct (os.stat _ _) as [[]|].
Qed.

Lemma mkdir_run p w :
  subprocess.not_file (fs w) (os.resolve (cwd w) p) = true ->
  os.resolve (cwd w) p <> [] ->
  os.stat (fs w) (removelast (os.resolve (cwd w) p)) = Some Dir ->
  exists f,
    os.mkdir_exist_ok p w = (Ok tt, set_fs f w)
    /\ f !! os.resolve (cwd w) p = Some Dir
    /\ forall k, k <> os.resolve (cwd w) p -> f !! k = fs w !! k.
Proof.
  intros Hnf Hne Hp. unfold os.mkdir_exist_ok, os.locate, bind, gets, modify, ret.
  rewrite Hp. unfold subprocess.not_file in Hnf.
  destruct (os.resolve (cwd w) p) as [|c k] eqn:Hk; [done|]. simpl.
  destruct (fs w !! (c :: k)) as [[|]|] eqn:Hl; [done| |].
  - exists (fs w). destruct w. by repeat split.
  - exists (<[c :: k := Dir]> (fs w)). repeat split.
    + apply lookup_insert_eq.
    + intros k' Hk'. by apply lookup_insert_ne.
Qed.

(** An [init.json] that is [inert] costs some lines of output. *)
Lemma inert_entries skip repo_root l w :
  toggle (environ w) "MHTORRENT_SKIP_DOWNLOAD" = skip ->
  forallb (inert_entry skip) l = true ->
  exists w', for_each l (external_file repo_root) w = (Ok tt, w')
             /\ later w w' /\ fs w' = fs w.
Proof.
  revert w. induction l as [|e l IH]; intros w Ht Hl.
  - exists w. split; [done|]. split; [apply later_refl | done].
  - simpl in Hl. apply andb_prop in Hl as [He Hl].
    assert (E : exists w1, external_file repo_root e w = (Ok tt, w1)
                           /\ later w w1 /\ fs w1 = fs w).
    { unfold inert_entry in He.
      destruct e as [| | | | |kvs]; try done.
      destruct (dict_get kvs "src_url") as [[| | |src| |]|] eqn:Hs; try done.
      destruct (startswith src "http") eqn:Hp.
      - apply andb_prop in He as [-> Hd].
        destruct (dict_get kvs "dest_file_path") as [[| | |dest| |]|] eqn:Hdest; try done.
        rewrite (external_file_url _ _ _ _ _ Hs Hp Hdest).
        unfold fetch, bind, environ_get, gets. rewrite Ht.
        eexists. split; [done|]. split; [by apply later_emit | done].
      - exists w. split; [|split; [apply later_refl | done]].
        by apply external_file_note with (src := src). }
    destruct E as (w1 & E1 & L1 & F1).
    destruct (IH w1) as (w2 & E2 & L2 & F2); [|done|].
    { by rewrite (later_environ _ _ L1). }
    exists w2. simpl. rewrite (bind_ok _ _ _ _ _ E1).
    split; [done|]. split; [by eapply later_trans | congruence].
Qed.

Lemma inert_files data repo_root w :
  inert (toggle (environ w) "MHTORRENT_SKIP_DOWNLOAD") data = true ->
  exists w', external_contrib_files data repo_root w = (Ok tt, w')
             /\ later w w' /\ fs w' = fs w.
Proof.
  unfold inert. destruct data as [| | | | |kvs]; try done.
  unfold external_contrib_files, dict_dot_get.
  destruct (dict_get kvs "external_contrib_files") as [v|] eqn:Hv.
  - intros Hi. unfold bind at 1, ret. simpl.
    destruct (truthy v) eqn:Htr.
    + destruct v as [| | | |l|];
        try (simpl in Hi; discriminate Hi).
      rewrite (bind_ok _ _ _ _ _ (subscript_some _ _ _ _ Hv)).
      unfold bind at 1, py_iter, ret.
      by apply (inert_entries _ _ _ _ eq_refl).
    + exists w. split; [done|]. split; [apply later_refl | done].
  - intros _. exists w. split; [done|]. split; [apply later_refl | done].
Qed.

Lemma git_clone_run url n tree w :
  cwd w = Repos -> plain n ->
  remote url = Some tree ->
  Forall (fun d => fs w !! d = Some Dir) (subprocess.prefixes Repos) ->
  fs w !! (Repos ++ [n]) = None ->
  subprocess_run [JStr "git"; JStr "clone"; JStr "--depth=1"; JStr url; JStr n] w
  = (Ok tt,
     mkWorld (environ w) (cwd w)
       (subprocess.install (Repos ++ [n]) tree (fs w))
       (trace w ++ [Print ("$ git clone --depth=1 " +:+ url +:+ " " +:+ n);
                    Exec ["git"; "clone"; "--depth=1"; url; n]])
       (pool w)).
Proof.
  intros Hc Hn Hr Hd Hfree.
  change [JStr "git"; JStr "clone"; JStr "--depth=1"; JStr url; JStr n]
    with (JStr <$> ["git"; "clone"; "--depth=1"; url; n]).
  unfold subprocess_run. rewrite (bind_ok _ _ _ _ _ (str_list_strings _ w)).
  unfold subprocess.run, bind at 1 2, print, modify.
  unfold subprocess.program, subprocess.git_clone. simpl.
  rewrite Hr, Hc, (resolve_name _ Hn).
  rewrite clonable_fresh by done.
  unfold set_fs. simpl. rewrite Hc, <- app_assoc. reflexivity.
Qed.

(** Lines 83 and 84 for a package that is [ready]. *)
Lemma clone_step w p :
  base B w -> ready B w p ->
  exists w1,
    (if negb (toggle (environ w) "MHTORRENT_SKIP_CLONE")
     then subprocess_run [JStr "git"; JStr "clone"; JStr "--depth=1";
                          JStr (pk_url p); JStr (fstring (JStr (pk_name p)))]
     else ret tt) w = (Ok tt, w1)
    /\ later w w1
    /\ (forall k, ~ (Repos ++ [pk_name p]) `prefix_of` k ->
                  fs w1 !! k = fs w !! k)
    /\ fs w1 !! (Repos ++ pk_name p :: init_json) = Some (File (pk_init p))
    /\ fs w1 !! (Repos ++ pk_name p :: config_json) = Some (File (pk_config p)).
Proof.
  intros (Hc & Hd & Hj) (Hn & _ & _ & Hrepo & _).
  destruct (toggle (environ w) "MHTORRENT_SKIP_CLONE"); simpl negb; cbv iota.
  - destruct Hrepo as [Hi Hcf]. exists w.
    split; [done|]. split; [apply later_refl|]. by repeat split.
  - destruct Hrepo as (tree & Hr & Hfree & Hi & Hcf).
    eexists. split; [by apply git_clone_run|].
    split.
    { split; try done. eexists. split; [done|]. reflexivity. }
    simpl. repeat split.
    + intros k Hk. rewrite install_lookup_outside, mkdirs_lookup by done.
      destruct (decide (k ∈ subprocess.prefixes (Repos ++ [pk_name p])))
        as [Hin|]; [|done].
      apply elem_of_prefixes in Hin as [Hne Hp].
      destruct (prefix_snoc_cases _ _ _ Hp) as [-> | Hp']; [by destruct Hk|].
      rewrite Forall_forall in Hd. symmetry. apply Hd.
      by apply elem_of_prefixes.
    + rewrite (cons_middle _ Repos), app_assoc, install_lookup_inside.
      by rewrite Hi.
    + rewrite (cons_middle _ Repos), app_assoc, install_lookup_inside.
      by rewrite Hcf.
Qed.

Lemma snoc_not_prefix_self {A} (l : list A) x k :
  ~ (l ++ [x]) `prefix_of` k -> k <> l ++ [x].
Proof. intros Hk ->. by apply Hk. Qed.

Lemma snoc2_not_prefix {A} (l : list A) x y k :
  ~ (l ++ [x]) `prefix_of` k -> k <> (l ++ [x]) ++ [y].
Proof. intros Hk ->. apply Hk. by apply prefix_app_r. Qed.

(** Lines 106 to 114 for a package whose repository is in place. *)
Lemma write_metadata_run w p :
  cwd w = Repos -> plain (pk_name p) ->
  fs w !! Jsons = Some Dir ->
  subprocess.not_file (fs w) (Jsons ++ [pk_name p]) = true ->
  fs w !! (Jsons ++ [pk_name p; "model.json"]) <> Some Dir ->
  fs w !! (Jsons ++ [pk_name p; "modelhub.json"]) <> Some Dir ->
  fs w !! (Repos ++ pk_name p :: config_json) = Some (File (pk_config p)) ->
  exists r w',
    write_metadata (JStr (pk_url p)) (JStr (pk_name p)) w = (r, w')
    /\ later w w'
    /\ (forall k, ~ (Jsons ++ [pk_name p]) `prefix_of` k ->
                  fs w' !! k = fs w !! k)
    /\ (if sound p then r = Ok tt /\ outputs B w' p
        else exists e, r = Raise e
                       /\ (loads (pk_config p) = None -> e = JSONDecodeError)).
Proof.
  intros Hc Hn Hj Hnf Hm Hh Hcfg.
  set (n := pk_name p) in *.
  assert (Kj : forall w0, cwd w0 = Repos ->
               os.resolve (cwd w0) (json_dir </> n) = Jsons ++ [n]).
  { intros w0 ->. by apply resolve_json_dir. }
  unfold write_metadata.
  rewrite (bind_ok (path_div repos_dir (JStr n)) _ w (repos_dir </> n) w eq_refl).
  assert (Hread : os.read_text (repos_dir </> n </> "contrib_src/model/config.json") w
                  = (Ok (pk_config p), w)).
  { apply read_text_file.
    rewrite resolve_config_json, Hc, resolve_repos_dir by done.
    rewrite stat_lookup, <- app_assoc. exact Hcfg. }
  rewrite (bind_ok _ _ _ _ _ Hread).
  unfold sound, outputs. fold n.
  destruct (loads (pk_config p)) as [config|] eqn:Hl.
  2:{ exists (Raise JSONDecodeError), w.
      split; [|split; [apply later_refl | by eauto]].
      apply bind_raise. unfold json_loads. by rewrite Hl. }
  rewrite (bind_ok (json_loads _) _ w config w
             ltac:(unfold json_loads; by rewrite Hl)).
  rewrite (bind_ok (path_div json_dir (JStr n)) _ w (json_dir </> n) w eq_refl).
  destruct (mkdir_run (json_dir </> n) w) as (f & Emk & Hdir & Hf).
  { by rewrite Kj. }
  { rewrite Kj by done. by destruct jsons. }
  { rewrite Kj by done. rewrite removelast_snoc.
    replace Jsons with (B ++ "json" :: []) by done. by rewrite stat_lookup. }
  rewrite Kj in Hdir, Hf by done.
  rewrite (bind_ok _ _ _ _ _ Emk), relative_to_child.
  rewrite (bind_ok (lift (Ok _)) _ _ _ _ eq_refl).
  destruct (Model config _ (JStr (pk_url p))) as [record|e] eqn:HM.
  2:{ exists (Raise e), (set_fs f w).
      split; [done|]. split; [apply later_set_fs|].
      split; [|exists e; by split].
      intros k Hk. simpl. apply Hf. by apply snoc_not_prefix_self. }
  rewrite (bind_ok (lift (Ok _)) _ _ _ _ eq_refl).
  assert (Hk1 : os.resolve (cwd (set_fs f w)) (json_dir </> n </> "model.json")
                = (Jsons ++ [n]) ++ ["model.json"]).
  { by rewrite resolve_model_json, Kj. }
  assert (Hk2 : forall f', os.resolve (cwd (set_fs f' w))
                             (json_dir </> n </> "modelhub.json")
                           = (Jsons ++ [n]) ++ ["modelhub.json"]).
  { intros f'. by rewrite resolve_modelhub_json, Kj. }
  assert (Hne1 : forall x : string, (Jsons ++ [n]) ++ [x] <> Jsons ++ [n]).
  { intros x E. apply (f_equal length) in E. rewrite !length_app in E.
    simpl in E. lia. }
  assert (Hw1 : os.write_text (json_dir </> n </> "model.json") (dumps record)
                  (set_fs f w)
                = (Ok tt, set_fs (<[(Jsons ++ [n]) ++ ["model.json"]
                                    := File (dumps record)]> f) w)).
  { rewrite write_text_run.
    - by rewrite Hk1.
    - rewrite Hk1, stat_lookup. simpl. rewrite Hf by apply Hne1.
      by rewrite <- app_assoc.
    - rewrite Hk1, removelast_snoc.
      replace (Jsons ++ [n]) with (Jsons ++ n :: []) by done.
      rewrite stat_lookup. apply Hdir. }
  rewrite (bind_ok _ _ _ _ _ Hw1).
  rewrite write_text_run.
  2:{ rewrite Hk2, stat_lookup. simpl.
      rewrite lookup_insert_ne by (by apply snoc_ne).
      rewrite Hf by apply Hne1. by rewrite <- app_assoc. }
  2:{ rewrite Hk2, removelast_snoc.
      replace (Jsons ++ [n]) with (Jsons ++ n :: []) by done.
      rewrite stat_lookup. simpl.
      rewrite lookup_insert_ne by apply Hne1. apply Hdir. }
  rewrite Hk2. simpl.
  eexists _, _. split; [done|].
  split. { split; try done. exists []. by rewrite app_nil_r. }
  split.
  - intros k Hk. simpl.
    rewrite !lookup_insert_ne by (apply not_eq_sym; by apply snoc2_not_prefix).
    apply Hf. by apply snoc_not_prefix_self.
  - split; [done|]. exists config, record. simpl.
    rewrite <- !app_assoc. simpl.
    repeat split; try done.
    + apply lookup_insert_eq.
    + rewrite lookup_insert_ne; [apply lookup_insert_eq|].
      intros E%app_inv_head. by inversion E.
Qed.

Lemma frame_own n w w' m l :
  frame B n w w' -> n <> m ->
  fs w' !! (Repos ++ m :: l) = fs w !! (Repos ++ m :: l)
  /\ fs w' !! (Jsons ++ m :: l) = fs w !! (Jsons ++ m :: l).
Proof.
  intros Hf Hnm. split; apply Hf.
  - intros Hp%prefix_app_inv. by apply prefix_cons_inv_1 in Hp.
  - unfold repos, jsons. rewrite <- !app_assoc.
    by apply sibling_not_prefix.
  - unfold repos, jsons. rewrite <- !app_assoc.
    by apply sibling_not_prefix.
  - intros Hp%prefix_app_inv. by apply prefix_cons_inv_1 in Hp.
Qed.

Lemma frame_base n w w' :
  frame B n w w' -> cwd w' = cwd w -> base B w -> base B w'.
Proof.
  intros Hf Hc (Hcwd & Hd & Hj). split; [congruence|]. split.
  - rewrite Forall_forall in *. intros d Hin. rewrite <- (Hd d Hin).
    apply elem_of_prefixes in Hin as [_ Hp%prefix_length].
    apply Hf; apply longer_not_prefix;
      unfold repos, jsons in *;
      rewrite !length_app in *; simpl in *; lia.
  - rewrite <- Hj. apply Hf.
    + unfold repos, jsons. rewrite <- app_assoc.
      by apply (sibling_not_prefix B "repos" "json" [n] []).
    + apply prefix_snoc_not.
Qed.

Lemma frame_ready n w w' q :
  frame B n w w' -> environ w' = environ w -> n <> pk_name q ->
  ready B w q -> ready B w' q.
Proof.
  intros Hf He Hn (Hp & Hg & Hnm & Hrepo & Hinit & Hnf & Hm & Hh).
  pose proof (fun l => proj1 (frame_own _ _ _ _ l Hf Hn)) as Fr.
  pose proof (fun l => proj2 (frame_own _ _ _ _ l Hf Hn)) as Fj.
  unfold ready. rewrite He.
  refine (conj Hp (conj Hg (conj Hnm (conj _ (conj Hinit (conj _ (conj _ _))))))).
  - destruct (toggle _ "MHTORRENT_SKIP_CLONE").
    + by rewrite !Fr.
    + destruct Hrepo as (tree & ? & ? & ? & ?). exists tree.
      by rewrite Fr.
  - unfold subprocess.not_file in *. by rewrite Fj.
  - by rewrite Fj.
  - by rewrite Fj.
Qed.

(** One call of [clone_repo] for a package that is [ready]. *)
Lemma task w p :
  base B w -> ready B w p ->
  exists w' t,
    clone_repo (JObj (pk_meta p)) w = (Ok (sound p), w')
    /\ base B w' /\ environ w' = environ w
    /\ frame B (pk_name p) w w'
    /\ (sound p = true -> outputs B w' p)
    /\ trace w' = trace w ++ t
    /\ failures t = (if sound p then 0 else 1)
    /\ (sound p = false ->
        exists e, Failed (JObj (pk_meta p)) e ∈ t
                  /\ (loads (pk_config p) = None -> e = JSONDecodeError)).
Proof.
  intros Hb Hr.
  destruct (clone_step w p Hb Hr) as (w1 & E1 & L1 & F1 & Hi1 & Hc1).
  destruct Hb as (Hcwd & Hd & Hj).
  destruct Hr as (Hp & Hg & Hnm & _ & (data & Hdata & Hinert) & Hnf & Hm & Hh).
  set (n := pk_name p) in *.
  assert (Hcwd1 : cwd w1 = Repos) by by rewrite (later_cwd _ _ L1).
  rewrite <- (later_environ _ _ L1) in Hinert.
  destruct (inert_files data (repos_dir </> n) w1 Hinert) as (w2 & E2 & L2 & F2).
  assert (Hcwd2 : cwd w2 = Repos) by by rewrite (later_cwd _ _ L2).
  assert (Nj : forall l, ~ (Repos ++ [n]) `prefix_of` (Jsons ++ l)).
  { intros l. unfold repos, jsons. rewrite <- !app_assoc.
    by apply sibling_not_prefix. }
  destruct (write_metadata_run w2 p) as (r & w3 & E3 & L3 & F3 & Hres);
    try done.
  { rewrite F2, <- Hj. rewrite <- (app_nil_r Jsons). apply F1, Nj. }
  { unfold subprocess.not_file in *. by rewrite F2, F1 by apply Nj. }
  { by rewrite F2, F1 by apply Nj. }
  { by rewrite F2, F1 by apply Nj. }
  { by rewrite F2. }
  assert (Eb : clone_repo_body (JObj (pk_meta p)) w = (r, w3)).
  { unfold clone_repo_body.
    rewrite (bind_ok _ _ _ _ _ (subscript_some _ _ _ w Hg)).
    rewrite (bind_ok _ _ _ _ _ (subscript_some _ _ _ w Hnm)).
    rewrite (bind_ok (environ_get _) _ w _ w eq_refl).
    rewrite (bind_ok _ _ _ _ _ E1).
    rewrite (bind_ok (path_div repos_dir (JStr n)) _ w1 (repos_dir </> n) w1 eq_refl).
    assert (Hread : os.read_text (repos_dir </> n </> "init/init.json") w1
                    = (Ok (pk_init p), w1)).
    { apply read_text_file.
      rewrite resolve_init_json, Hcwd1, resolve_repos_dir by done.
      rewrite stat_lookup, <- app_assoc. exact Hi1. }
    rewrite (bind_ok _ _ _ _ _ Hread).
    rewrite (bind_ok (json_loads _) _ w1 data w1
               ltac:(unfold json_loads; by rewrite Hdata)).
    by rewrite (bind_ok _ _ _ _ _ E2). }
  assert (L : later w w3) by eauto using later_trans.
  assert (Fr : frame B n w w3).
  { intros k Hkr Hkj. by rewrite F3, F2, F1. }
  destruct L as [Le Lc Lp (t & Lt & Lf)].
  unfold clone_repo, handle_errors. rewrite Eb.
  destruct (sound p).
  - destruct Hres as [-> Hout]. exists w3, t.
    repeat split; try done.
    all: apply (frame_base n w w3); try done; by repeat split.
  - destruct Hres as (e & -> & He).
    exists (emit (Failed (JObj (pk_meta p)) e) w3), (t ++ [Failed (JObj (pk_meta p)) e]).
    repeat split; try done.
    1-3: apply (frame_base n w w3); try done; by repeat split.
    + simpl. by rewrite Lt, app_assoc.
    + rewrite failures_app, Lf. reflexivity.
    + intros _. exists e. split; [|done].
      apply elem_of_app. right. by apply list_elem_of_singleton.
Qed.

Lemma frames_cons n ns w w1 w2 :
  frame B n w w1 -> frames B ns w1 w2 -> frames B (n :: ns) w w2.
Proof.
  intros F1 F2 k Hk. apply Forall_cons in Hk as [[Hr Hj] Hk].
  rewrite F2 by done. by apply F1.
Qed.

Lemma frames_outputs ns w w' q :
  frames B ns w w' -> pk_name q ∉ ns -> outputs B w q -> outputs B w' q.
Proof.
  intros Hf Hn (config & record & Hl & HM & Hh & Hm).
  assert (Fj : forall l, fs w' !! (Jsons ++ pk_name q :: l)
                         = fs w !! (Jsons ++ pk_name q :: l)).
  { intros l. apply Hf. apply Forall_forall. intros n Hin. split.
    - unfold repos, jsons. rewrite <- !app_assoc.
      by apply sibling_not_prefix.
    - intros Hp%prefix_app_inv. apply prefix_cons_inv_1 in Hp. by subst. }
  exists config, record. by rewrite !Fj.
Qed.

(** The calls for a list of packages, one after the other. *)
Lemma run_packages ps w :
  base B w -> Forall (ready B w) ps -> NoDup (pk_name <$> ps) ->
  exists w' t,
    run_calls ((fun p => JObj (pk_meta p)) <$> ps) w = (Ok (sound <$> ps), w')
    /\ base B w' /\ environ w' = environ w
    /\ frames B (pk_name <$> ps) w w'
    /\ Forall (fun p => sound p = true -> outputs B w' p) ps
    /\ trace w' = trace w ++ t
    /\ failures t = length (List.filter (fun p => negb (sound p)) ps)
    /\ Forall (fun p => sound p = false ->
                exists e, Failed (JObj (pk_meta p)) e ∈ t
                          /\ (loads (pk_config p) = None -> e = JSONDecodeError)) ps.
Proof.
  revert w. induction ps as [|p ps IH]; intros w Hb Hr Hnd.
  - exists w, []. simpl. rewrite app_nil_r.
    split; [done|]. split; [done|]. split; [done|].
    split; [by intros k _|]. by repeat split.
  - apply Forall_cons in Hr as [Hp Hr].
    rewrite fmap_cons in Hnd. apply NoDup_cons in Hnd as [Hnotin Hnd].
    destruct (task w p Hb Hp)
      as (w1 & t1 & E1 & Hb1 & He1 & F1 & Ho1 & Ht1 & Hf1 & Hx1).
    destruct (IH w1) as (w2 & t2 & E2 & Hb2 & He2 & F2 & Ho2 & Ht2 & Hf2 & Hx2);
      [done | | done |].
    { rewrite Forall_forall in *. intros q Hq.
      apply (frame_ready (pk_name p) w); [done | done | | by apply Hr].
      intros Heq. apply Hnotin. rewrite Heq. by apply list_elem_of_fmap_2. }
    exists w2, (t1 ++ t2). simpl.
    rewrite (bind_ok _ _ _ _ _ E1), (bind_ok _ _ _ _ _ E2).
    split; [done|]. split; [done|]. split; [congruence|].
    split; [by eapply frames_cons|].
    split.
    { apply Forall_cons. split; [|done].
      intros Hs. eapply frames_outputs; eauto. }
    split; [by rewrite Ht2, Ht1, app_assoc|].
    split.
    { rewrite failures_app, Hf1, Hf2. by destruct (sound p). }
    apply Forall_cons. split.
    + intros Hs. destruct (Hx1 Hs) as (e & Hin & He). exists e.
      split; [|done]. apply elem_of_app. by left.
    + eapply Forall_impl; [exact Hx2|]. simpl.
      intros q Hq Hs. destruct (Hq Hs) as (e & Hin & He). exists e.
      split; [|done]. apply elem_of_app. by right.
Qed.

End Isolation.

Section Containment.
Context `{Externals}.

Lemma sound_all_true ps :
  Forall (fun p => sound p = true) ps ->
  sound <$> ps = replicate (length ps) true
  /\ List.filter (fun p => negb (sound p)) ps = [].
Proof.
  induction 1 as [|p ps Hp _ [IH1 IH2]]; [done|].
  split.
  - rewrite fmap_cons, Hp. simpl. by f_equal.
  - simpl. by rewrite Hp.
Qed.


End Containment.

Section Instances.
Import demo run.


Lemma non_http_entry_skipped_witness :
  external_file (repos_dir </> "m1") note (start ∅) = (Ok tt, start ∅)
  /\ for_each [note] (external_file (repos_dir </> "m1")) (start ∅)
     = for_each [] (external_file (repos_dir </> "m1")) (start ∅).
Proof.
  apply (non_http_entry_skipped (repos_dir </> "m1") _ "TODO fill in" []);
    reflexivity.
Defined.

(** C2 as the spec states it fails: [httpx://h/f] starts with neither
    [http://] nor [https://], and the loop hands it to [wget], whose
    failure fails the package. *)
Lemma http_prefix_entry_is_fetched :
  let e := JObj [("src_url", JStr "httpx://h/f"); ("dest_file_path", JStr "f")] in
  let r := external_file (repos_dir </> "m3") e (done_ ∅) in
  startswith "httpx://h/f" "http://" = false
  /\ startswith "httpx://h/f" "https://" = false
  /\ r.1 = Raise CalledProcessError
  /\ news (done_ ∅) r.2
     = [Print "downloading httpx://h/f to ../repos/m3/f";
        Print "$ wget httpx://h/f -O ../repos/m3/f";
        Exec ["wget"; "httpx://h/f"; "-O"; "../repos/m3/f"]].
Proof. run_it. Qed.





Lemma metadata_of_synchronized_package_witness :
  exists kvs github_repo name text config record,
    descriptor m3 = JObj kvs
    /\ dict_get kvs "github" = Some github_repo
    /\ dict_get kvs "name" = Some (JStr name)
    /\ fs (clone_repo_body (descriptor m3) (queued ∅)).2
         !! (os.resolve (cwd (queued ∅)) (repos_dir </> name)
             ++ ["contrib_src"; "model"; "config.json"]) = Some (File text)
    /\ loads text = Some config
    /\ fs (clone_repo_body (descriptor m3) (queued ∅)).2
         !! (os.resolve (cwd (queued ∅)) (json_dir </> name) ++ ["modelhub.json"])
       = Some (File (dumps config))
    /\ Model config (mkPath "" ["modelhub.json"]) github_repo = Ok record
    /\ pathlib.is_absolute (mkPath "" ["modelhub.json"]) = false
    /\ fs (clone_repo_body (descriptor m3) (queued ∅)).2
         !! (os.resolve (cwd (queued ∅)) (json_dir </> name) ++ ["model.json"])
       = Some (File (dumps record)).
Proof.
  apply (metadata_of_synchronized_package (descriptor m3) (queued ∅)).
  vm_compute. reflexivity.
Defined.

(** C5 as the spec states it fails: [modelhub.json] is not the bytes of
    [config.json]. The document is parsed and written again, and [dumps]
    puts a space after the colon. *)
Lemma modelhub_json_is_written_again :
  let w := done_ ∅ in
  fs w !! ["work"; "repos"; "m1"; "contrib_src"; "model"; "config.json"]
  = Some (File ("{" +:+ q "foo" +:+ ":" +:+ q "bar" +:+ "}"))
  /\ fs w !! ["work"; "json"; "m1"; "modelhub.json"]
     = Some (File ("{" +:+ q "foo" +:+ ": " +:+ q "bar" +:+ "}"))
  /\ String.eqb ("{" +:+ q "foo" +:+ ":" +:+ q "bar" +:+ "}")
                ("{" +:+ q "foo" +:+ ": " +:+ q "bar" +:+ "}") = false.
Proof. run_it. Qed.

Lemma missing_github_fails_before_clone_witness :
  clone_repo_body (JObj [("name", JStr "m1")]) (queued ∅)
  = (Raise (KeyError "github"), queued ∅)
  /\ clone_repo (JObj [("name", JStr "m1")]) (queued ∅)
     = (Ok false,
        emit (Failed (JObj [("name", JStr "m1")]) (KeyError "github")) (queued ∅)).
Proof.
  apply (missing_github_fails_before_clone [("name", JStr "m1")]).
  reflexivity.
Defined.

(** C6 as the spec states it fails: an empty [github] URL is not
    looked at. It goes to [git clone], and when clones are off the call
    succeeds with it. *)
Lemma empty_github_url_is_cloned :
  let m4 := JObj [("name", JStr "m4"); ("github", JStr "")] in
  let r := clone_repo_body m4 (queued ∅) in
  let m3' := JObj [("name", JStr "m3"); ("github", JStr "")] in
  let r' := clone_repo_body m3' (with_environ no_clone (done_ ∅)) in
  r.1 = Raise CalledProcessError
  /\ news (queued ∅) r.2
     = [Print "$ git clone --depth=1  m4";
        Exec ["git"; "clone"; "--depth=1"; ""; "m4"]]
  /\ r'.1 = Ok tt.
Proof. run_it. Qed.

Lemma missing_saved_index_aborts_witness :
  create_model_repos (made saved) = (Raise FileNotFoundError, made saved)
  /\ forall w0 p,
       (safe_dir "../repos" >> safe_dir "../json") w0 = (Ok p, made saved) ->
       script w0 = (Raise FileNotFoundError, made saved).
Proof.
  apply (missing_saved_index_aborts (made saved)); reflexivity.
Defined.



Lemma falsy_external_contrib_files_witness :
  external_contrib_files (JObj [("external_contrib_files", JArr [])])
    (repos_dir </> "m3") (queued ∅) = (Ok tt, queued ∅)
  /\ (external_contrib_files (JObj [("external_contrib_files", JArr [])])
        (repos_dir </> "m3") >> print "next") (queued ∅)
     = print "next" (queued ∅)
  /\ forall kvs',
       dict_get kvs' "external_contrib_files" = None ->
       external_contrib_files (JObj kvs') (repos_dir </> "m3") (queued ∅)
       = (Ok tt, queued ∅)
       /\ (external_contrib_files (JObj kvs') (repos_dir </> "m3")
            >> print "next") (queued ∅)
          = print "next" (queued ∅).
Proof.
  apply (falsy_external_contrib_files _ (JArr [])); reflexivity.
Defined.

End Instances.

(** * More of the script *)

(** ** [safe_dir] *)

Section SafeDir.
Context `{Externals}.

Lemma set_fs_same w : set_fs (fs w) w = w.
Proof. by destruct w. Qed.

Lemma mkdir_made p w w' :
  os.mkdir_exist_ok p w = (Ok tt, w') ->
  cwd w' = cwd w
  /\ os.stat (fs w') (os.resolve (cwd w) p) = Some Dir
  /\ (w' = w
      \/ (os.stat (fs w) (os.resolve (cwd w) p) = None
          /\ w' = set_fs (<[os.resolve (cwd w) p := Dir]> (fs w)) w)).
Proof.
  unfold os.mkdir_exist_ok, os.locate, bind, gets, modify, ret, raise.
  destruct (os.stat (fs w) (os.resolve (cwd w) p)) as [[|]|] eqn:Hk;
    [discriminate | |].
  - intros [= <-]. auto.
  - destruct (os.stat (fs w) (removelast (os.resolve (cwd w) p))) as [[|]|];
      try discriminate.
    intros [= <-]. split; [done|]. split; [|by right].
    simpl. apply stat_insert_eq. intros E. by rewrite E in Hk.
Qed.

(** X1: a call of [safe_dir] that returns gives back [curr / where]; the
    path is a directory from then on, and a second call finds it and
    changes nothing. *)
Theorem safe_dir_again where_ w p w' :
  safe_dir where_ w = (Ok p, w') ->
  p = curr </> where_
  /\ os.stat (fs w') (os.resolve (cwd w') p) = Some Dir
  /\ safe_dir where_ w' = (Ok p, w').
Proof.
  unfold safe_dir. intros E.
  apply bind_inv_ok in E as ([] & w1 & E1 & E2).
  inversion E2; subst p w1; clear E2.
  apply mkdir_made in E1 as (Hc & Hd & _).
  rewrite Hc. split; [done|]. split; [done|].
  unfold os.mkdir_exist_ok, os.locate, bind, gets, ret.
  by rewrite Hc, Hd.
Qed.

(** X2: [safe_dir] makes one directory, not the ones above it: when
    neither the path nor its parent exists it raises [FileNotFoundError]
    and the file system is as it was. *)
Theorem safe_dir_makes_no_parents where_ w :
  os.stat (fs w) (os.resolve (cwd w) (curr </> where_)) = None ->
  os.stat (fs w) (removelast (os.resolve (cwd w) (curr </> where_))) = None ->
  safe_dir where_ w = (Raise FileNotFoundError, w).
Proof.
  intros Hk Hp.
  unfold safe_dir, os.mkdir_exist_ok, os.locate, bind, gets, raise.
  by rewrite Hk, Hp.
Qed.

End SafeDir.

(** ** [subprocess_run] and [download_file] *)

Section Processes.
Context `{Externals}.

Lemma str_list_cases l w :
  (exists argv, l = JStr <$> argv /\ str_list l w = (Ok argv, w))
  \/ ((forall argv, l <> JStr <$> argv) /\ str_list l w = (Raise TypeError, w)).
Proof.
  induction l as [|v l IH].
  - left. by exists [].
  - destruct v as [| | |s| |];
      try (right; split; [by intros [|? ?] | done]).
    destruct IH as [(argv & -> & E) | [Hn E]].
    + left. exists (s :: argv). split; [done|].
      simpl. by rewrite (bind_ok _ _ _ _ _ E).
    + right. split.
      * intros [|a argv]; [done|]. intros [= _ ->]. by apply (Hn argv).
      * simpl. by rewrite (bind_raise _ _ _ _ _ E).
Qed.

(** X3: [subprocess_run] shows the command and then starts it, whatever
    comes of the process; an argument that is not a string raises
    [TypeError] in the join, before the command is shown or started. *)
Theorem subprocess_run_shows_then_runs arg_list w r w' :
  subprocess_run arg_list w = (r, w') ->
  (exists argv t,
     arg_list = JStr <$> argv
     /\ trace w' = trace w ++ Print ("$ " +:+ join " " argv) :: Exec argv :: t)
  \/ ((forall argv, arg_list <> JStr <$> argv)
      /\ r = Raise TypeError /\ w' = w).
Proof.
  intros E.
  destruct (str_list_cases arg_list w) as [(argv & -> & _) | [Hn El]].
  - left. destruct (subprocess_run_events _ _ _ _ E) as (t & Ht).
    by exists argv, t.
  - right. split; [done|].
    unfold subprocess_run in E. rewrite (bind_raise _ _ _ _ _ El) in E.
    by inversion E.
Qed.

Lemma wget_silent url dest w r w' :
  subprocess.wget url dest w = (r, w') ->
  trace w' = trace w /\ (r = Ok tt \/ r = Raise CalledProcessError).
Proof.
  unfold subprocess.wget. intros E.
  repeat case_match; inversion E; auto.
Qed.

(** X4: [download_file] runs [wget url -O dest] and prints the exit
    status after a process that succeeded, so the line is always [0]; a
    process that fails raises [CalledProcessError] and no status is
    printed. *)
Theorem download_file_prints_status url dest w r w' :
  download_file (JStr url) dest w = (r, w') ->
  (r = Ok tt
   /\ trace w' = trace w
                 ++ [Print ("$ wget " +:+ url +:+ " -O " +:+ pathlib.str dest);
                     Exec ["wget"; url; "-O"; pathlib.str dest];
                     Print "0"])
  \/ (r = Raise CalledProcessError
      /\ trace w' = trace w
                    ++ [Print ("$ wget " +:+ url +:+ " -O " +:+ pathlib.str dest);
                        Exec ["wget"; url; "-O"; pathlib.str dest]]).
Proof.
  unfold download_file.
  change [JStr "wget"; JStr url; JStr "-O"; JStr (pathlib.str dest)]
    with (JStr <$> ["wget"; url; "-O"; pathlib.str dest]).
  unfold subprocess_run.
  rewrite bind_assoc, (bind_ok _ _ _ _ _ (str_list_strings _ w)).
  unfold subprocess.run, subprocess.program.
  unfold bind at 1 2 3, print at 1, modify.
  destruct (subprocess.wget url (pathlib.str dest) _) as [r1 w1] eqn:Ew.
  apply wget_silent in Ew as [Ht Hr]. simpl in Ht.
  destruct Hr as [-> | ->]; intros E; inversion E; subst; simpl.
  - left. split; [done|]. rewrite Ht. by rewrite <- !app_assoc.
  - right. split; [done|]. rewrite Ht. by rewrite <- !app_assoc.
Qed.

End Processes.

(** ** The index and the dispatch *)

Section Orchestration.
Context `{Externals}.

Lemma resolve_models_json c :
  os.resolve c (json_dir </> "models.json")
  = os.resolve c json_dir ++ ["models.json"].
Proof. apply resolve_child; try done. by repeat constructor. Qed.


Lemma chdir_inv p w r w' :
  os.chdir p w = (r, w') ->
  (r = Ok tt /\ w' = set_cwd (os.resolve (cwd w) p) w
   /\ os.stat (fs w) (os.resolve (cwd w) p) = Some Dir)
  \/ ((exists e, r = Raise e) /\ w' = w).
Proof.
  unfold os.chdir, os.locate, bind, gets, modify, raise. intros E.
  destruct (os.stat (fs w) (os.resolve (cwd w) p)) as [[|]|] eqn:Hs;
    inversion E; eauto.
Qed.

(** [chdir(curr)] in a directory that exists: [curr] is [Path()], the
    directory the process is in. *)
Lemma chdir_curr w :
  os.stat (fs w) (cwd w) = Some Dir -> os.chdir curr w = (Ok tt, w).
Proof.
  intros Hs. unfold os.chdir, os.locate, bind, gets, modify.
  change (os.resolve (cwd w) curr) with (cwd w). rewrite Hs.
  by destruct w.
Qed.

Lemma dispatch_inv models w r w' :
  dispatch models w = (r, w') ->
  (r = Ok tt
   /\ exists calls,
        py_iter models w = (Ok calls, w)
        /\ w' = set_pool (pool w ++ calls) (set_cwd (os.resolve (cwd w) repos_dir) w))
  \/ ((exists e, r = Raise e) /\ pool w' = pool w /\ fs w' = fs w
      /\ trace w' = trace w).
Proof.
  unfold dispatch. intros E.
  apply bind_inv in E as [([] & w1 & E1 & E) | (e & E1 & ->)].
  2:{ right. apply chdir_inv in E1 as [(? & _) | (_ & ->)]; [done|]. eauto. }
  apply chdir_inv in E1 as [(_ & -> & Hd) | ((e & ?) & _)]; [|done].
  set (k := os.resolve (cwd w) repos_dir) in *.
  apply bind_inv in E as [(l & w2 & E2 & E) | (e & E2 & ->)].
  2:{ right. split; [by eauto|].
      unfold py_iter, ret, raise in E2. destruct models; by inversion E2. }
  pose proof (py_iter_ok _ _ _ _ E2) as ->.
  rewrite (bind_ok _ _ _ _ _ (for_each_submit l _)) in E.
  rewrite chdir_curr in E by done.
  inversion E; subst r w'. left. split; [done|]. exists l. split; [|done].
  unfold py_iter, ret, raise in *. destruct models; by inversion E2.
Qed.

Lemma tame_saved_index : tame saved_index.
Proof.
  unfold saved_index. apply tame_bind; [apply tame_read_text|].
  intros text. apply tame_json_loads.
Qed.

Lemma index_step w r w1 :
  (if toggle (environ w) "MHTORRENT_USE_LOCAL_MODEL_INDEX"
   then saved_index else get_model_index) w = (r, w1) ->
  later w w1.
Proof.
  destruct (toggle _ _); [apply tame_saved_index | apply tame_get_model_index].
Qed.

Lemma create_model_repos_steps w :
  create_model_repos w
  = bind (if toggle (environ w) "MHTORRENT_USE_LOCAL_MODEL_INDEX"
          then saved_index else get_model_index) dispatch w.
Proof.
  destruct (toggle _ _) eqn:Ht.
  - by apply create_model_repos_saved.
  - by apply create_model_repos_live.
Qed.

(** X6: [create_model_repos] submits all the entries of the index or
    none. When it raises (no index, an index that is not JSON or cannot
    be iterated, no [repos] directory) the queue is as it was: the loop
    itself cannot fail, nor can the [chdir] after it. *)
Theorem aborted_run_dispatches_nothing w e w' :
  create_model_repos w = (Raise e, w') -> pool w' = pool w.
Proof.
  rewrite create_model_repos_steps. intros E.
  apply bind_inv in E as [(models & w1 & E1 & E2) | (e' & E1 & _)].
  - apply index_step in E1 as L.
    apply dispatch_inv in E2 as [(? & _) | (_ & Hp & _)]; [done|].
    by rewrite Hp, (later_pool _ _ L).
  - apply index_step in E1 as L. apply (later_pool _ _ L).
Qed.

Lemma create_model_repos_cwd w w' :
  create_model_repos w = (Ok tt, w') ->
  cwd w' = os.resolve (cwd w) repos_dir.
Proof.
  rewrite create_model_repos_steps. intros E.
  apply bind_inv_ok in E as (models & w1 & E1 & E2).
  apply index_step in E1 as L.
  apply dispatch_inv in E2 as [(_ & calls & _ & ->) | ((e & ?) & _)]; [|done].
  simpl. by rewrite (later_cwd _ _ L).
Qed.

(** X7: [create_model_repos] does not come back to the directory it
    started in. [curr] is [Path()], so [chdir(curr)] stays where
    [chdir(repos_dir)] went: after a run the process is in [repos_dir]. *)
Theorem run_ends_in_repos_dir w w' :
  create_model_repos w = (Ok tt, w') ->
  cwd w' = os.resolve (cwd w) repos_dir.
Proof. apply create_model_repos_cwd. Qed.

End Orchestration.

(** ** From [main] to the calls *)

Section MainLayout.
Context `{Externals}.

Lemma resolve_repos_from c :
  os.resolve c repos_dir = removelast c ++ ["repos"].
Proof. reflexivity. Qed.

Lemma resolve_json_from c :
  os.resolve c json_dir = removelast c ++ ["json"].
Proof. reflexivity. Qed.

Lemma safe_dir_ok where_ w p w' :
  safe_dir where_ w = (Ok p, w') ->
  cwd w' = cwd w
  /\ os.stat (fs w') (os.resolve (cwd w) (curr </> where_)) = Some Dir
  /\ forall k, k <> os.resolve (cwd w) (curr </> where_) ->
               fs w' !! k = fs w !! k.
Proof.
  unfold safe_dir. intros E.
  apply bind_inv_ok in E as ([] & w1 & E1 & E2).
  inversion E2; subst p w1; clear E2.
  apply mkdir_made in E1 as (Hc & Hd & Hw).
  split; [done|]. split; [done|].
  intros k Hk. destruct Hw as [-> | [_ ->]]; [done|].
  simpl. by rewrite lookup_insert_ne.
Qed.

Lemma index_ok w models w1 :
  (if toggle (environ w) "MHTORRENT_USE_LOCAL_MODEL_INDEX"
   then saved_index else get_model_index) w = (Ok models, w1) ->
  forall k, k <> os.resolve (cwd w) (json_dir </> "models.json") ->
            fs w1 !! k = fs w !! k.
Proof.
  destruct (toggle _ _).
  - unfold saved_index. intros E k _.
    apply bind_inv_ok in E as (text & w2 & E1 & E2).
    apply read_text_ok in E1 as [-> _].
    by apply json_loads_ok in E2 as [-> _].
  - unfold get_model_index. intros E k Hk.
    apply bind_inv_ok in E as (body & w2 & E1 & E).
    apply bind_inv_ok in E as ([] & w3 & E2 & E3).
    unfold requests_get, bind, modify in E1.
    destruct (http MODEL_JSON_URL); [|discriminate].
    inversion E1; subst; clear E1.
    apply write_text_ok in E2 as [_ ->].
    apply json_loads_ok in E3 as [-> _].
    simpl. by rewrite lookup_insert_ne.
Qed.

(** X8: [main] leaves the layout that the calls work in. Started in a
    directory whose parent exists, a run of [main] that returns has made
    [repos] and [json] side by side in that parent, and the process is in
    [repos]: the state [base] describes. *)
Theorem main_lays_out w w' :
  Forall (fun d => fs w !! d = Some Dir)
    (subprocess.prefixes (removelast (cwd w))) ->
  main w = (Ok tt, w') ->
  base (removelast (cwd w)) w'.
Proof.
  intros Hd E. unfold main in E.
  apply bind_inv_ok in E as (p1 & w1 & E1 & E).
  apply bind_inv_ok in E as (p2 & w2 & E2 & E).
  apply safe_dir_ok in E1 as (Hc1 & Hs1 & Hf1).
  apply safe_dir_ok in E2 as (Hc2 & Hs2 & Hf2).
  change (curr </> "../repos") with repos_dir in *.
  change (curr </> "../json") with json_dir in *.
  rewrite Hc1 in *. rewrite resolve_repos_from in *. rewrite resolve_json_from in *.
  set (B := removelast (cwd w)) in *.
  apply create_model_repos_cwd in E as Hcwd.
  rewrite Hc2, resolve_repos_from in Hcwd. fold B in Hcwd.
  rewrite create_model_repos_steps in E.
  apply bind_inv_ok in E as (models & w3 & E3 & E4).
  pose proof (index_ok _ _ _ E3) as Hf3.
  rewrite Hc2, resolve_models_json, resolve_json_from in Hf3. fold B in Hf3.
  apply dispatch_ok in E4 as (calls & _ & _ & _ & Hf4 & _).
  assert (Hrepos : fs w' !! (B ++ ["repos"]) = Some Dir).
  { rewrite Hf4, Hf3, Hf2.
    - by rewrite stat_lookup in Hs1.
    - by apply snoc_ne.
    - intros Heq. apply (f_equal length) in Heq. rewrite !length_app in Heq.
      simpl in Heq. lia. }
  assert (Hjson : fs w' !! (B ++ ["json"]) = Some Dir).
  { rewrite Hf4, Hf3.
    - by rewrite stat_lookup in Hs2.
    - intros Heq. apply (f_equal length) in Heq. rewrite !length_app in Heq.
      simpl in Heq. lia. }
  split; [done|]. split; [|done].
  apply Forall_forall. intros d Hin.
  apply elem_of_prefixes in Hin as [Hne Hp].
  destruct (prefix_snoc_cases _ _ _ Hp) as [-> | Hp']; [done|].
  rewrite Forall_forall in Hd.
  rewrite <- (Hd d) by by apply elem_of_prefixes.
  apply prefix_length in Hp'.
  rewrite Hf4, Hf3, Hf2, Hf1; [done|..];
    intros Heq; apply (f_equal length) in Heq; rewrite !length_app in Heq;
    simpl in Heq; lia.
Qed.

End MainLayout.

(** ** Descriptors that are not what [clone_repo] expects *)

Section Descriptors.
Context `{Externals}.

(** X9: an entry of the index that is not a dict (as when the index is
    an object and the loop runs over its keys), or a dict without a
    [name], fails at the first two lines of [clone_repo]: [TypeError] or
    [KeyError], from the state the call started in. *)
Theorem malformed_descriptor_fails_first model_meta w :
  ((forall kvs, model_meta <> JObj kvs) ->
   clone_repo_body model_meta w = (Raise TypeError, w))
  /\ (forall kvs github_repo,
        model_meta = JObj kvs ->
        dict_get kvs "github" = Some github_repo ->
        dict_get kvs "name" = None ->
        clone_repo_body model_meta w = (Raise (KeyError "name"), w)).
Proof.
  split.
  - intros Hn. unfold clone_repo_body.
    apply bind_raise. destruct model_meta; try done. by destruct (Hn kvs).
  - intros kvs g -> Hg Hname. unfold clone_repo_body.
    rewrite (bind_ok _ _ _ _ _ (subscript_some _ _ _ _ Hg)).
    by rewrite (bind_raise _ _ _ _ _ (subscript_none _ _ _ Hname)).
Qed.

(** X10: a [github] value that is not a string never reaches git. With
    clones on, the command is joined for display before it is run, and the
    join raises [TypeError]: nothing is shown, started or changed. *)
Theorem non_string_github_is_not_cloned kvs github_repo name w :
  dict_get kvs "github" = Some github_repo ->
  (forall s, github_repo <> JStr s) ->
  dict_get kvs "name" = Some name ->
  toggle (environ w) "MHTORRENT_SKIP_CLONE" = false ->
  clone_repo_body (JObj kvs) w = (Raise TypeError, w).
Proof.
  intros Hg Hs Hn Ht. unfold clone_repo_body.
  rewrite (bind_ok _ _ _ _ _ (subscript_some _ _ _ _ Hg)).
  rewrite (bind_ok _ _ _ _ _ (subscript_some _ _ _ _ Hn)).
  unfold bind at 1, environ_get, gets. rewrite Ht. simpl negb. cbv iota.
  apply bind_raise. unfold subprocess_run. apply bind_raise.
  simpl. destruct github_repo; try done. by destruct (Hs s).
Qed.


End Descriptors.

(** ** Entries of [external_contrib_files] *)

Section Entries.
Context `{Externals}.

(** X12: a value under [external_contrib_files] that is true and is not
    a list fails the package with [TypeError] before anything is fetched:
    a number or [true] cannot be iterated, and a string or a dict is
    iterated over characters or keys, which have no [src_url]. *)
Theorem listed_files_must_be_a_list kvs listed repo_root w :
  dict_get kvs "external_contrib_files" = Some listed ->
  truthy listed = true ->
  (forall l, listed <> JArr l) ->
  external_contrib_files (JObj kvs) repo_root w = (Raise TypeError, w).
Proof.
  intros Hl Ht Hn.
  unfold external_contrib_files, dict_dot_get.
  unfold bind at 1, ret. rewrite Hl. simpl. rewrite Ht.
  rewrite (bind_ok _ _ _ _ _ (subscript_some _ _ _ _ Hl)).
  destruct listed as [|b|n|s|l|kvs']; try done.
  - destruct s; done.
  - by destruct (Hn l).
  - destruct kvs' as [|[k v] kvs']; done.
Qed.

Lemma entry_cases repo_root e w :
  match valid_entry e with
  | Some (src, dest) =>
      external_file repo_root e w = fetch src (destination repo_root dest) w
  | None =>
      (exists kvs src,
         e = JObj kvs /\ dict_get kvs "src_url" = Some (JStr src)
         /\ startswith src "http" = false
         /\ external_file repo_root e w = (Ok tt, w))
      \/ (exists x, external_file repo_root e w = (Raise x, w))
  end.
Proof.
  destruct (valid_entry e) as [[src dest]|] eqn:Hv.
  { by apply valid_entry_fetch. }
  unfold valid_entry in Hv.
  destruct e as [| | | | |kvs];
    try (right; exists TypeError; reflexivity).
  destruct (dict_get kvs "src_url") as [v|] eqn:Hs.
  2:{ right. exists (KeyError "src_url").
      unfold external_file. by rewrite (bind_raise _ _ _ _ _ (subscript_none _ _ _ Hs)). }
  assert (Hsub := subscript_some kvs "src_url" v w Hs).
  destruct v as [| | |src| |];
    try (right; exists AttributeError; unfold external_file;
         rewrite (bind_ok _ _ _ _ _ Hsub); reflexivity).
  destruct (startswith src "http") eqn:Hp.
  2:{ left. exists kvs, src. repeat split; try done.
      by apply external_file_note with (src := src). }
  right. unfold external_file. rewrite (bind_ok _ _ _ _ _ Hsub).
  rewrite (bind_ok (dot_startswith (JStr src) "http") _ w true w)
    by (unfold dot_startswith, ret; by rewrite Hp).
  cbn [negb].
  destruct (dict_get kvs "dest_file_path") as [d|] eqn:Hd.
  2:{ exists (KeyError "dest_file_path").
      by rewrite (bind_raise _ _ _ _ _ (subscript_none _ _ _ Hd)). }
  rewrite (bind_ok _ _ _ _ _ (subscript_some _ _ _ _ Hd)).
  destruct d as [| | |dest| |]; try discriminate;
    exists AttributeError; reflexivity.
Qed.


Lemma skipped_downloads data repo_root w r w' :
  toggle (environ w) "MHTORRENT_SKIP_DOWNLOAD" = true ->
  external_contrib_files data repo_root w = (r, w') ->
  exists n,
    w' = mkWorld (environ w) (cwd w) (fs w)
           (trace w ++ replicate n (Print "skipping download")) (pool w).
Proof.
  intros Ht.
  assert (Hsame : w = mkWorld (environ w) (cwd w) (fs w)
                        (trace w ++ replicate 0 (Print "skipping download"))
                        (pool w)).
  { simpl. rewrite app_nil_r. by destruct w. }
  assert (Hloop : forall l w0 r0 w0',
            toggle (environ w0) "MHTORRENT_SKIP_DOWNLOAD" = true ->
            for_each l (external_file repo_root) w0 = (r0, w0') ->
            exists n,
              w0' = mkWorld (environ w0) (cwd w0) (fs w0)
                      (trace w0 ++ replicate n (Print "skipping download"))
                      (pool w0)).
  { clear. induction l as [|e l IH]; intros w0 r0 w0' Ht E.
    - inversion E. exists 0. simpl. rewrite app_nil_r. by destruct w0'.
    - simpl in E. pose proof (entry_cases repo_root e w0) as Ho.
      destruct (valid_entry e) as [[src dest]|].
      + unfold bind at 1 in E. rewrite Ho in E.
        unfold fetch, bind, environ_get, gets in E. rewrite Ht in E.
        unfold print, modify in E.
        apply IH in E as (n & ->); [|done]. exists (S n). simpl.
        by rewrite <- app_assoc.
      + destruct Ho as [(kvs & src & _ & _ & _ & Ee) | (x & Ee)].
        * rewrite (bind_ok _ _ _ _ _ Ee) in E. by apply IH in E.
        * rewrite (bind_raise _ _ _ _ _ Ee) in E. inversion E. exists 0.
          simpl. rewrite app_nil_r. by destruct w0'. }
  unfold external_contrib_files. intros E.
  apply bind_inv in E as [(listed & w1 & E1 & E) | (e & E1 & _)].
  2:{ exists 0. unfold dict_dot_get, ret, raise in E1.
      destruct data; inversion E1; by subst. }
  assert (w1 = w) as ->.
  { unfold dict_dot_get, ret, raise in E1. destruct data; by inversion E1. }
  destruct (truthy listed).
  2:{ inversion E; subst. by exists 0. }
  apply bind_inv in E as [(files & w1 & E2 & E) | (e & E2 & _)].
  2:{ exists 0. unfold subscript, ret, raise in E2.
      repeat case_match; inversion E2; by subst. }
  assert (w1 = w) as ->.
  { unfold subscript, ret, raise in E2. repeat case_match; by inversion E2. }
  apply bind_inv in E as [(l & w1 & E3 & E) | (e & E3 & _)].
  2:{ exists 0. unfold py_iter, ret, raise in E3.
      destruct files; inversion E3; by subst. }
  pose proof (py_iter_ok _ _ _ _ E3) as ->.
  by eapply Hloop.
Qed.

(** X14: with downloads off, [init.json] starts no process and changes
    no file, whatever it holds: the resolver returns or raises having
    printed [skipping download] some number of times, and nothing else
    has changed. *)
Theorem no_download_starts_nothing data repo_root w r w' :
  toggle (environ w) "MHTORRENT_SKIP_DOWNLOAD" = true ->
  external_contrib_files data repo_root w = (r, w') ->
  exists n,
    w' = mkWorld (environ w) (cwd w) (fs w)
           (trace w ++ replicate n (Print "skipping download")) (pool w).
Proof. apply skipped_downloads. Qed.

End Entries.

(** ** The two metadata files *)

Section MetadataFiles.
Context `{Externals}.

Lemma stat_insert_ne (f : gmap (list string) node) k k' nd :
  k <> k' -> os.stat (<[k := nd]> f) k' = os.stat f k'.
Proof. intros Hk. destruct k'; [done|]. simpl. by apply lookup_insert_ne. Qed.

Lemma snoc_ne_self {A} (k : list A) x : k ++ [x] <> k.
Proof.
  intros E. apply (f_equal length) in E. rewrite length_app in E.
  simpl in E. lia.
Qed.

(** What a run of lines 106 to 114 that returned has read, and the
    state it has left. *)
Lemma write_metadata_done github_repo name w w' :
  write_metadata github_repo name w = (Ok tt, w') ->
  exists n text config record f,
    name = JStr n
    /\ os.stat (fs w) (os.resolve (cwd w) (repos_dir </> n)
                       ++ ["contrib_src"; "model"; "config.json"])
       = Some (File text)
    /\ loads text = Some config
    /\ Model config (mkPath "" ["modelhub.json"]) github_repo = Ok record
    /\ os.stat f (os.resolve (cwd w) (json_dir </> n)) = Some Dir
    /\ (f = fs w
        \/ (os.stat (fs w) (os.resolve (cwd w) (json_dir </> n)) = None
            /\ f = <[os.resolve (cwd w) (json_dir </> n) := Dir]> (fs w)))
    /\ w' = set_fs (<[os.resolve (cwd w) (json_dir </> n) ++ ["modelhub.json"]
                      := File (dumps config)]>
                    (<[os.resolve (cwd w) (json_dir </> n) ++ ["model.json"]
                       := File (dumps record)]> f)) w.
Proof.
  unfold write_metadata. intros E.
  apply bind_inv_ok in E as (repo_root & w1 & E1 & E).
  apply path_div_ok in E1 as (n & -> & -> & ->).
  apply bind_inv_ok in E as (text & w1 & E1 & E).
  apply read_text_ok in E1 as [-> Htext].
  apply bind_inv_ok in E as (config & w1 & E1 & E).
  apply json_loads_ok in E1 as [-> Hconfig].
  apply bind_inv_ok in E as (dir & w1 & E1 & E).
  apply path_div_ok in E1 as (n' & [= <-] & -> & ->).
  apply bind_inv_ok in E as ([] & w1 & E1 & E).
  apply mkdir_made in E1 as (Hc1 & Hd1 & Hw1).
  rewrite relative_to_child in E.
  apply bind_inv_ok in E as (rel & w2 & E2 & E).
  inversion E2; subst rel w2; clear E2.
  apply bind_inv_ok in E as (record & w2 & E2 & E).
  unfold lift in E2.
  destruct (Model config _ github_repo) as [rec|] eqn:HM;
    inversion E2; subst rec w2; clear E2.
  apply bind_inv_ok in E as ([] & w2 & E2 & E).
  apply write_text_ok in E2 as [_ ->].
  apply write_text_ok in E as [_ ->].
  simpl. rewrite !Hc1, resolve_model_json, resolve_modelhub_json.
  rewrite resolve_config_json in Htext.
  exists n, text, config, record, (fs w1).
  repeat split; try done.
  - destruct Hw1 as [-> | [Hno ->]]; auto.
  - by destruct Hw1 as [-> | [Hno ->]].
Qed.

(** X15: the metadata is written the same way twice. After a run of
    lines 106 to 114 that returned, a second run from the state it left
    returns and leaves that state: the directory is found, and both files
    are written again with what they hold. *)
Theorem write_metadata_again github_repo name w w' :
  write_metadata github_repo name w = (Ok tt, w') ->
  write_metadata github_repo name w' = (Ok tt, w').
Proof.
  intros E.
  apply write_metadata_done in E
    as (n & text & config & record & f & -> & Ht & Hl & HM & Hd & Hf & ->).
  set (J := os.resolve (cwd w) (json_dir </> n)) in *.
  set (K := os.resolve (cwd w) (repos_dir </> n)
            ++ ["contrib_src"; "model"; "config.json"]) in *.
  set (f2 := <[J ++ ["modelhub.json"] := File (dumps config)]>
               (<[J ++ ["model.json"] := File (dumps record)]> f)).
  assert (HK : os.stat f2 K = Some (File text)).
  { unfold f2, K.
    rewrite !stat_insert_ne.
    - destruct Hf as [-> | [Hno ->]]; [done|].
      rewrite stat_insert_ne; [done|]. intros Heq. fold K in Heq.
      rewrite <- Heq, Hno in Ht. discriminate.
    - rewrite (app_assoc _ ["contrib_src"; "model"] ["config.json"]).
      by apply snoc_ne.
    - rewrite (app_assoc _ ["contrib_src"; "model"] ["config.json"]).
      by apply snoc_ne. }
  assert (HJ : os.stat f2 J = Some Dir).
  { unfold f2. by rewrite !stat_insert_ne by apply snoc_ne_self. }
  assert (Hm : f2 !! (J ++ ["model.json"]) = Some (File (dumps record))).
  { unfold f2. rewrite lookup_insert_ne by (by apply snoc_ne).
    apply lookup_insert_eq. }
  assert (Hh : f2 !! (J ++ ["modelhub.json"]) = Some (File (dumps config))).
  { apply lookup_insert_eq. }
  set (w2 := set_fs f2 w).
  unfold write_metadata.
  rewrite (bind_ok (path_div repos_dir (JStr n)) _ w2 (repos_dir </> n) w2 eq_refl).
  assert (Hread : os.read_text (repos_dir </> n </> "contrib_src/model/config.json") w2
                  = (Ok text, w2)).
  { apply read_text_file. by rewrite resolve_config_json. }
  rewrite (bind_ok _ _ _ _ _ Hread).
  rewrite (bind_ok (json_loads _) _ w2 config w2
             ltac:(unfold json_loads; by rewrite Hl)).
  rewrite (bind_ok (path_div json_dir (JStr n)) _ w2 (json_dir </> n) w2 eq_refl).
  assert (Hmk : os.mkdir_exist_ok (json_dir </> n) w2 = (Ok tt, w2)).
  { unfold os.mkdir_exist_ok, os.locate, bind, gets, ret.
    change (os.stat (fs w2) (os.resolve (cwd w2) (json_dir </> n)))
      with (os.stat f2 J). by rewrite HJ. }
  rewrite (bind_ok _ _ _ _ _ Hmk), relative_to_child.
  rewrite (bind_ok (lift (Ok _)) _ _ _ _ eq_refl), HM.
  rewrite (bind_ok (lift (Ok _)) _ _ _ _ eq_refl).
  assert (Hw : forall x s, f2 !! (J ++ [x]) = Some (File s) ->
               os.write_text (json_dir </> n </> x) s w2 = (Ok tt, w2)
               \/ os.resolve (cwd w2) (json_dir </> n </> x) <> J ++ [x]).
  { intros x s Hx.
    destruct (decide (os.resolve (cwd w2) (json_dir </> n </> x) = J ++ [x]))
      as [Hr|]; [left|by right].
    rewrite write_text_run.
    - rewrite Hr. simpl. rewrite insert_id by done. by destruct w.
    - rewrite Hr. replace (J ++ [x]) with (J ++ x :: []) by done.
      rewrite stat_lookup. simpl. rewrite Hx. discriminate.
    - rewrite Hr, removelast_last. exact HJ. }
  destruct (Hw "model.json" _ Hm) as [E1 | Hbad];
    [|destruct Hbad; apply resolve_model_json].
  rewrite (bind_ok _ _ _ _ _ E1).
  destruct (Hw "modelhub.json" _ Hh) as [E2 | Hbad];
    [done | destruct Hbad; apply resolve_modelhub_json].
Qed.

End MetadataFiles.

(** ** A call with both switches on *)

Section Offline.
Context `{Externals}.

(** [w'] is [w] with other files at [keys], and nothing else changed. *)
Local Abbreviation rewrites keys w w' :=
  (exists f, w' = set_fs f w
             /\ forall k : list string, k ∉ keys -> f !! k = fs w !! k).

Lemma rewrites_refl (keys : list (list string)) w : rewrites keys w w.
Proof. exists (fs w). split; [by destruct w | done]. Qed.

Lemma rewrites_insert (keys : list (list string)) w k nd :
  k ∈ keys -> rewrites keys w (set_fs (<[k := nd]> (fs w)) w).
Proof.
  intros Hk. exists (<[k := nd]> (fs w)). split; [done|].
  intros k' Hk'. apply lookup_insert_ne. intros ->. by apply Hk'.
Qed.

Lemma rewrites_trans (keys : list (list string)) w1 w2 w3 :
  rewrites keys w1 w2 -> rewrites keys w2 w3 -> rewrites keys w1 w3.
Proof.
  intros (f & -> & Hf) (g & -> & Hg). exists g. split; [done|].
  intros k Hk. rewrite (Hg k Hk). simpl. by apply Hf.
Qed.

Lemma read_text_same p w r w' : os.read_text p w = (r, w') -> w' = w.
Proof.
  unfold os.read_text, os.locate, bind, gets, ret, raise.
  destruct (os.stat _ _) as [[|]|]; by intros [= _ <-].
Qed.

Lemma json_loads_same s w r w' : json_loads s w = (r, w') -> w' = w.
Proof.
  unfold json_loads, ret, raise. destruct (loads s); by intros [= _ <-].
Qed.

Lemma mkdir_reach p w r w' :
  os.mkdir_exist_ok p w = (r, w') ->
  w' = w \/ w' = set_fs (<[os.resolve (cwd w) p := Dir]> (fs w)) w.
Proof.
  unfold os.mkdir_exist_ok, os.locate, bind, gets, ret, raise, modify.
  destruct (os.stat _ _) as [[|]|]; [by intros [= _ <-]; left
                                    |by intros [= _ <-]; left|].
  destruct (os.stat _ _) as [[|]|]; intros [= _ <-]; auto.
Qed.

Lemma write_text_reach p s w r w' :
  os.write_text p s w = (r, w') ->
  w' = w \/ w' = set_fs (<[os.resolve (cwd w) p := File s]> (fs w)) w.
Proof.
  unfold os.write_text, os.locate, bind, gets, ret, raise, modify.
  destruct (os.stat _ _) as [[|]|];
    try (by intros [= _ <-]; left);
    destruct (os.stat _ _) as [[|]|]; intros [= _ <-]; auto.
Qed.

(** Lines 106 to 114 change at most the directory of the package under
    [json] and its two files, however they end. *)
Lemma write_metadata_reach github_repo n w r w' :
  write_metadata github_repo (JStr n) w = (r, w') ->
  rewrites [os.resolve (cwd w) (json_dir </> n);
            os.resolve (cwd w) (json_dir </> n) ++ ["model.json"];
            os.resolve (cwd w) (json_dir </> n) ++ ["modelhub.json"]] w w'.
Proof.
  set (keys := [os.resolve (cwd w) (json_dir </> n);
                os.resolve (cwd w) (json_dir </> n) ++ ["model.json"];
                os.resolve (cwd w) (json_dir </> n) ++ ["modelhub.json"]]).
  unfold write_metadata. intros E.
  rewrite (bind_ok (path_div repos_dir (JStr n)) _ w _ w eq_refl) in E.
  apply bind_inv in E as [(text & w1 & E1 & E) | (e & E1 & _)];
    apply read_text_same in E1 as ->; [|apply rewrites_refl].
  apply bind_inv in E as [(config & w1 & E1 & E) | (e & E1 & _)];
    apply json_loads_same in E1 as ->; [|apply rewrites_refl].
  rewrite (bind_ok (path_div json_dir (JStr n)) _ w _ w eq_refl) in E.
  assert (Hmk : forall r1 w1, os.mkdir_exist_ok (json_dir </> n) w = (r1, w1) ->
                rewrites keys w w1 /\ cwd w1 = cwd w).
  { intros r1 w1 E1. apply mkdir_reach in E1 as [-> | ->].
    - split; [apply rewrites_refl | done].
    - split; [|done]. apply rewrites_insert. unfold keys. rewrite !elem_of_cons. auto. }
  apply bind_inv in E as [([] & w1 & E1 & E) | (e & E1 & _)];
    apply Hmk in E1 as [R1 Hc1]; [|done].
  apply (rewrites_trans keys w w1 w'); [done|]. clear R1 Hmk.
  rewrite relative_to_child in E.
  rewrite (bind_ok (lift (Ok _)) _ _ _ _ eq_refl) in E.
  apply bind_inv in E as [(record & w2 & E2 & E) | (e & E2 & _)];
    unfold lift in E2; inversion E2; subst; [|apply rewrites_refl].
  assert (Hwr : forall x s w0 r2 w2,
            cwd w0 = cwd w ->
            os.resolve (cwd w) (json_dir </> n </> x)
            = os.resolve (cwd w) (json_dir </> n) ++ [x] ->
            os.resolve (cwd w) (json_dir </> n) ++ [x] ∈ keys ->
            os.write_text (json_dir </> n </> x) s w0 = (r2, w2) ->
            rewrites keys w0 w2 /\ cwd w2 = cwd w).
  { intros x s w0 r2 w3 Hc Hr Hin E3.
    apply write_text_reach in E3 as [-> | ->].
    - split; [apply rewrites_refl | done].
    - split; [|done]. apply rewrites_insert. by rewrite Hc, Hr. }
  assert (Hin1 : os.resolve (cwd w) (json_dir </> n) ++ ["model.json"] ∈ keys)
    by (unfold keys; rewrite !elem_of_cons; auto).
  assert (Hin2 : os.resolve (cwd w) (json_dir </> n) ++ ["modelhub.json"] ∈ keys)
    by (unfold keys; rewrite !elem_of_cons; auto).
  apply bind_inv in E as [([] & w3 & E3 & E) | (e & E3 & _)].
  - destruct (Hwr _ _ _ _ _ Hc1 (resolve_model_json _ _) Hin1 E3) as [R3 Hc3].
    apply (rewrites_trans keys w2 w3 w'); [done|].
    by destruct (Hwr _ _ _ _ _ Hc3 (resolve_modelhub_json _ _) Hin2 E).
  - by destruct (Hwr _ _ _ _ _ Hc1 (resolve_model_json _ _) Hin1 E3).
Qed.

(** X16: a call with both switches on stays on the disk and touches only
    the metadata. With [MHTORRENT_SKIP_CLONE] and [MHTORRENT_SKIP_DOWNLOAD]
    set to a non-empty value, a call for an entry whose name is a string
    starts no process, however it ends: the only lines it adds to the
    trace are [skipping download], one for each entry it would have
    fetched, and the only paths whose content may differ afterwards are
    [json/<name>], [json/<name>/model.json] and
    [json/<name>/modelhub.json]. *)
Theorem offline_call_touches_only_metadata kvs n w r w' :
  dict_get kvs "name" = Some (JStr n) ->
  toggle (environ w) "MHTORRENT_SKIP_CLONE" = true ->
  toggle (environ w) "MHTORRENT_SKIP_DOWNLOAD" = true ->
  clone_repo_body (JObj kvs) w = (r, w') ->
  exists k f,
    w' = mkWorld (environ w) (cwd w) f
           (trace w ++ replicate k (Print "skipping download")) (pool w)
    /\ forall key,
         key ∉ [os.resolve (cwd w) (json_dir </> n);
                os.resolve (cwd w) (json_dir </> n) ++ ["model.json"];
                os.resolve (cwd w) (json_dir </> n) ++ ["modelhub.json"]] ->
         f !! key = fs w !! key.
Proof.
  intros Hn Hclone Hdl E.
  assert (Hstay : forall w0, w0 = w ->
            exists k f,
              w0 = mkWorld (environ w) (cwd w) f
                     (trace w ++ replicate k (Print "skipping download"))
                     (pool w)
              /\ forall key,
                   key ∉ [os.resolve (cwd w) (json_dir </> n);
                          os.resolve (cwd w) (json_dir </> n) ++ ["model.json"];
                          os.resolve (cwd w) (json_dir </> n) ++ ["modelhub.json"]] ->
                   f !! key = fs w !! key).
  { intros w0 ->. exists 0, (fs w). split; [|done].
    simpl. rewrite app_nil_r. by destruct w. }
  unfold clone_repo_body in E.
  apply bind_inv in E as [(github_repo & w1 & E1 & E) | (e & E1 & _)].
  2: { apply Hstay. unfold subscript, raise, ret in E1.
       destruct (dict_get kvs "github"); by inversion E1. }
  apply subscript_ok in E1 as (kvs' & [= <-] & _ & ->).
  rewrite (bind_ok (subscript (JObj kvs) "name") _ w _ w
             (subscript_some _ _ _ _ Hn)) in E.
  rewrite (bind_ok (environ_get "MHTORRENT_SKIP_CLONE") _ w true w) in E
    by (unfold environ_get, gets; by rewrite Hclone).
  cbn [negb] in E.
  rewrite (bind_ok (ret tt) _ w tt w eq_refl) in E.
  rewrite (bind_ok (path_div repos_dir (JStr n)) _ w _ w eq_refl) in E.
  apply bind_inv in E as [(text & w1 & E1 & E) | (e & E1 & _)];
    apply read_text_same in E1 as ->; [|by apply Hstay].
  apply bind_inv in E as [(data & w1 & E1 & E) | (e & E1 & _)];
    apply json_loads_same in E1 as ->; [|by apply Hstay].
  apply bind_inv in E as [([] & w1 & E1 & E) | (e & E1 & _)].
  2: { apply skipped_downloads in E1 as [k ->]; [|done].
       exists k, (fs w). by split. }
  apply skipped_downloads in E1 as [k ->]; [|done].
  apply write_metadata_reach in E as (f & -> & Hf).
  exists k, f. by split.
Qed.

End Offline.

(** ** The properties on the small index *)

Section MoreInstances.
Import demo run.

Lemma safe_dir_again_witness :
  let w' := (safe_dir "../repos" (start ∅)).2 in
  repos_dir = curr </> "../repos"
  /\ os.stat (fs w') (os.resolve (cwd w') repos_dir) = Some Dir
  /\ safe_dir "../repos" w' = (Ok repos_dir, w').
Proof.
  intros w'. apply (safe_dir_again "../repos" (start ∅)).
  vm_compute. reflexivity.
Defined.

Lemma safe_dir_makes_no_parents_witness :
  safe_dir "../x/y" (start ∅) = (Raise FileNotFoundError, start ∅).
Proof. apply safe_dir_makes_no_parents; vm_compute; reflexivity. Defined.

Lemma subprocess_run_shows_then_runs_witness :
  let arg_list := [JStr "git"; JStr "clone"; JStr "--depth=1";
                   JStr "https://x/m3.git"; JStr "m3"] in
  let w := queued ∅ in
  exists argv t,
    arg_list = JStr <$> argv
    /\ trace (subprocess_run arg_list w).2
       = trace w ++ Print ("$ " +:+ join " " argv) :: Exec argv :: t.
Proof.
  intros arg_list w.
  destruct (subprocess_run_shows_then_runs arg_list w _ _
              (surjective_pairing _)) as [Hrun | (Hn & _)].
  - exact Hrun.
  - exfalso.
    by apply (Hn ["git"; "clone"; "--depth=1"; "https://x/m3.git"; "m3"]).
Defined.

Lemma download_file_prints_status_witness :
  let dest := mkPath "" ["w.bin"] in
  trace (download_file (JStr "https://h/w.bin") dest (start ∅)).2
  = trace (start ∅)
    ++ [Print ("$ wget " +:+ "https://h/w.bin" +:+ " -O " +:+ pathlib.str dest);
        Exec ["wget"; "https://h/w.bin"; "-O"; pathlib.str dest];
        Print "0"].
Proof.
  intros dest.
  destruct (download_file_prints_status "https://h/w.bin" dest (start ∅) _ _
              (surjective_pairing _)) as [[_ Ht] | [Hr _]].
  - exact Ht.
  - vm_compute in Hr. discriminate.
Defined.


Lemma aborted_run_dispatches_nothing_witness :
  pool (create_model_repos (made saved)).2 = pool (made saved).
Proof.
  apply (aborted_run_dispatches_nothing (made saved) FileNotFoundError).
  vm_compute. reflexivity.
Defined.

Lemma run_ends_in_repos_dir_witness :
  cwd (create_model_repos (made ∅)).2 = os.resolve (cwd (made ∅)) repos_dir.
Proof. apply run_ends_in_repos_dir. vm_compute. reflexivity. Defined.

Lemma main_lays_out_witness : base (removelast (cwd (start ∅))) (queued ∅).
Proof.
  apply (main_lays_out (start ∅)).
  - vm_compute. repeat constructor.
  - vm_compute. reflexivity.
Defined.

Lemma malformed_descriptor_fails_first_witness :
  clone_repo_body (JStr "name") (queued ∅) = (Raise TypeError, queued ∅)
  /\ clone_repo_body (JObj [("github", JStr "https://x/m1.git")]) (queued ∅)
     = (Raise (KeyError "name"), queued ∅).
Proof.
  split.
  - apply (proj1 (malformed_descriptor_fails_first (JStr "name") (queued ∅))).
    intros kvs. discriminate.
  - apply (proj2 (malformed_descriptor_fails_first _ (queued ∅))
             [("github", JStr "https://x/m1.git")] (JStr "https://x/m1.git"));
      reflexivity.
Defined.

Lemma non_string_github_is_not_cloned_witness :
  clone_repo_body (JObj [("github", JNull); ("name", JStr "m4")]) (queued ∅)
  = (Raise TypeError, queued ∅).
Proof.
  apply (non_string_github_is_not_cloned _ JNull (JStr "m4"));
    try reflexivity.
  intros s. discriminate.
Defined.


Lemma listed_files_must_be_a_list_witness :
  external_contrib_files
    (JObj [("external_contrib_files", JStr "contrib_src/model/w.bin")])
    (repos_dir </> "m3") (done_ ∅)
  = (Raise TypeError, done_ ∅).
Proof.
  apply (listed_files_must_be_a_list _ (JStr "contrib_src/model/w.bin"));
    try reflexivity.
  intros l. discriminate.
Defined.

Lemma no_download_starts_nothing_witness :
  let data := JObj [("external_contrib_files", JArr [note; weights])] in
  let w := with_environ no_download (done_ ∅) in
  exists n,
    (external_contrib_files data (repos_dir </> "m3") w).2
    = mkWorld (environ w) (cwd w) (fs w)
        (trace w ++ replicate n (Print "skipping download")) (pool w).
Proof.
  intros data w.
  apply (no_download_starts_nothing data (repos_dir </> "m3") w
           (external_contrib_files data (repos_dir </> "m3") w).1).
  - vm_compute. reflexivity.
  - apply surjective_pairing.
Defined.

Lemma write_metadata_again_witness :
  let w' := (write_metadata (JStr "https://x/m3.git") (JStr "m3") (done_ ∅)).2 in
  write_metadata (JStr "https://x/m3.git") (JStr "m3") w' = (Ok tt, w').
Proof.
  intros w'.
  apply (write_metadata_again (JStr "https://x/m3.git") (JStr "m3") (done_ ∅)).
  vm_compute. reflexivity.
Defined.

Lemma offline_call_touches_only_metadata_witness :
  let env : gmap string string :=
    {[ "MHTORRENT_SKIP_CLONE" := "1"; "MHTORRENT_SKIP_DOWNLOAD" := "1" ]} in
  let w := with_environ env (done_ ∅) in
  exists k f,
    (clone_repo_body (descriptor m1) w).2
    = mkWorld (environ w) (cwd w) f
        (trace w ++ replicate k (Print "skipping download")) (pool w)
    /\ f !! ["work"; "repos"; "m1"; "contrib_src"; "model"; "w.bin"]
       = fs w !! ["work"; "repos"; "m1"; "contrib_src"; "model"; "w.bin"].
Proof.
  intros env w.
  destruct (offline_call_touches_only_metadata (pk_meta m1) "m1" w _ _
              ltac:(reflexivity) ltac:(vm_compute; reflexivity)
              ltac:(vm_compute; reflexivity) (surjective_pairing _))
    as (k & f & E & Hf).
  exists k, f. split; [exact E|].
  apply Hf. apply (bool_decide_unpack _). vm_compute. exact I.
Defined.

End MoreInstances.
